(** * A shallow embedding of mergekit's merge planner and merge driver

    Sources embedded:
    - [src/mergekit/plan.py]: [MergePlanner] with [__init__], [plan_tensor],
      [plan_layer], [plan_slice] and [plan].
    - [src/mergekit/merge.py]: [MergeOptions] and [run_merge].

    Python exceptions are modelled by an error sum [PyError + _]; the
    planner's mutable attributes are threaded by an error-state monad; the
    driver's observable side effects (seeding, planning, warm-up, execution,
    writing files) are recorded in an event log. *)

From Stdlib Require Import String List ZArith QArith Bool Lia DecimalString.
Import ListNotations.
Open Scope string_scope.
Open Scope list_scope.
Open Scope Z_scope.

(** ** Python values and errors *)

Inductive PyError :=
| RuntimeError (msg : string)
| TypeError (msg : string)
| IndexError (msg : string)
| AttributeError (msg : string)
| ConfigError (msg : string).

(** Decimal rendering of an integer, as Python's [str(int)]. *)
Definition py_str_int (z : Z) : string := NilZero.string_of_int (Z.to_int z).

(** A Python [dict] built by successive assignments [d[k] = v]: an
    existing key keeps its position and takes the new value, a new key is
    appended. *)
Fixpoint dict_set {K V} (eqk : K -> K -> bool) (d : list (K * V)) (k : K) (v : V)
  : list (K * V) :=
  match d with
  | [] => [(k, v)]
  | (k', v') :: d' => if eqk k k' then (k', v) :: d' else (k', v') :: dict_set eqk d' k v
  end.

(** [dict(pairs)]. *)
Definition dict_of_list {K V} (eqk : K -> K -> bool) (l : list (K * V)) : list (K * V) :=
  fold_left (fun d kv => dict_set eqk d (fst kv) (snd kv)) l [].

(** ** Configuration (mergekit.config, mergekit.common) *)

(** A model reference is identified by its path string; [ModelReference.parse]
    is modelled as the identity on that string. *)
Definition ModelReference := string.

Record InputSliceDefinition := {
  model : ModelReference;
  layer_range : Z * Z }.

Record OutputSliceDefinition := {
  sources : list InputSliceDefinition }.

Record InputModelDefinition := {
  imd_model : ModelReference }.

(** Optional list fields are [option (list _)]: [None] is Python's [None]. *)
Record MergeConfiguration := {
  merge_method : string;
  slices : option (list OutputSliceDefinition);
  models : option (list InputModelDefinition);
  base_model : option string;
  dtype : option string }.

(** Python truthiness of an optional list. *)
Definition truthy_list {A} (o : option (list A)) : bool :=
  match o with Some (_ :: _) => true | _ => false end.

(** Python truthiness of an optional string. *)
Definition truthy_str (o : option string) : bool :=
  match o with Some s => negb (String.eqb s "") | None => false end.

(** ** Architecture metadata (mergekit.architecture) *)

(** A layer weight name template such as ["model.layers.{idx}.mlp.weight"]. *)
Inductive FmtPiece := Lit (s : string) | IdxField.
Definition NameFormat := list FmtPiece.

(** [name_format.format(idx=i)]. *)
Definition format_idx (f : NameFormat) (i : Z) : string :=
  fold_right (fun p acc =>
    match p with Lit s => String.append s acc | IdxField => String.append (py_str_int i) acc end)
    "" f.

Record ArchInfo := {
  pre_weights : list string;
  post_weights : list string;
  layer_weight_formats : list NameFormat;
  embed_weights : list string;
  num_layers_config_key : string }.

Definition FmtPiece_eq_dec (a b : FmtPiece) : {a = b} + {a <> b}.
Proof. decide equality; apply string_dec. Defined.

Definition ArchInfo_eq_dec (a b : ArchInfo) : {a = b} + {a <> b}.
Proof.
  decide equality;
    repeat first [ apply string_dec | apply list_eq_dec | apply FmtPiece_eq_dec ].
Defined.

(** [a == b] on architecture infos. *)
Definition ArchInfo_eqb (a b : ArchInfo) : bool :=
  if ArchInfo_eq_dec a b then true else false.

(** ** Options (mergekit.merge.MergeOptions) *)

Record MergeOptions := {
  allow_crimes : bool;
  transformers_cache : option string;
  lora_merge_cache : option string;
  cuda : bool;
  low_cpu_memory : bool;
  out_shard_size : Z;
  copy_tokenizer : bool;
  clone_tensors_opt : bool;
  trust_remote_code : bool;
  random_seed : option Z;
  lazy_unpickle : bool }.

(** [MergeOptions()] with every default; [parse_kmb("5B")] is 5 * 10^9. *)
Definition default_MergeOptions : MergeOptions := {|
  allow_crimes := false; transformers_cache := None; lora_merge_cache := None;
  cuda := false; low_cpu_memory := false; out_shard_size := 5000000000;
  copy_tokenizer := true; clone_tensors_opt := false; trust_remote_code := false;
  random_seed := None; lazy_unpickle := false |}.

(** ** Parameters and the configuration reader *)

Inductive Value := VNone | VNum (q : Q) | VStr (s : string) | VBool (b : bool).

Record ConfigParameterDef := {
  p_name : string;
  p_required : bool;
  p_default_value : Value }.

(** Modelled from the spec: [mergekit.config.ConfigReader] (absent from the
    sources) is the scope context of the parameter resolver of §4.5: the
    configuration, the tensor, the output slice, the input slices and the
    interpolation fraction [t]. [for_in_slices], [for_tensor] and [with_t]
    narrow one component. *)
Record ConfigReader := {
  cr_config : MergeConfiguration;
  cr_tensor_name : option string;
  cr_slice_out : option OutputSliceDefinition;
  cr_slices_in : option (list InputSliceDefinition);
  cr_t : Q }.

Definition for_in_slices (r : ConfigReader) (s : option (list InputSliceDefinition)) :=
  {| cr_config := cr_config r; cr_tensor_name := cr_tensor_name r;
     cr_slice_out := cr_slice_out r; cr_slices_in := s; cr_t := cr_t r |}.

Definition for_tensor (r : ConfigReader) (n : string) :=
  {| cr_config := cr_config r; cr_tensor_name := Some n;
     cr_slice_out := cr_slice_out r; cr_slices_in := cr_slices_in r; cr_t := cr_t r |}.

Definition with_t (r : ConfigReader) (t : Q) :=
  {| cr_config := cr_config r; cr_tensor_name := cr_tensor_name r;
     cr_slice_out := cr_slice_out r; cr_slices_in := cr_slices_in r; cr_t := t |}.

(** [ConfigReader(config=..., slice_out=..., t=..., tensor_name=...)]. *)
Definition mk_ConfigReader (c : MergeConfiguration) (so : option OutputSliceDefinition)
  (t : Q) (tn : option string) : ConfigReader :=
  {| cr_config := c; cr_tensor_name := tn; cr_slice_out := so; cr_slices_in := None;
     cr_t := t |}.

(** ** Tasks (mergekit.tasks, mergekit.merge_methods) *)

Local Set Warnings "-register-all".

(** A merge method is either one returned by the registry
    [merge_methods.get(name)] or a [TokenizerPermutationMerge] wrapping the
    tokenizer-build task; [make_task] yields a [MergeTensorTask]. *)
Inductive MergeMethod :=
| RegisteredMethod (name : string)
| TokenizerPermutationMerge (tokenizer_task : Task)
with Task :=
| TensorWriterTask (out_path : string) (max_shard_size : Z)
| BuildTokenizer (merge_config : MergeConfiguration) (trust_remote_code : bool)
| GatherTensors (tensor_names : list (ModelReference * string)) (dtype : option string)
| MergeTensorTask (method : MergeMethod) (output_tensor_name : string) (tensors : Task)
    (parameters : list (string * Value))
    (tensor_parameters : list (ModelReference * list (string * Value)))
    (base_model : option ModelReference)
| SaveTensor (tensor_name : string) (tensor_task : Task) (writer_task : Task) (clone : bool)
| FinalizeModel (tensor_save_tasks : list Task) (writer_task : Task).

Definition is_save_task (t : Task) : bool :=
  match t with SaveTensor _ _ _ _ => true | _ => false end.

Definition is_finalize_task (t : Task) : bool :=
  match t with FinalizeModel _ _ => true | _ => false end.

Definition is_tokenizer_task (t : Task) : bool :=
  match t with BuildTokenizer _ _ => true | _ => false end.

Definition save_name (t : Task) : option string :=
  match t with SaveTensor n _ _ _ => Some n | _ => None end.

(** ** The planner object and its error-state monad *)

(** The attributes of a [MergePlanner] instance. [_tensor_log] is ghost
    state, absent from the Python object: it records the name and the
    configuration reader of every [plan_tensor] call, in order. *)
Record MergePlanner := {
  config : MergeConfiguration;
  arch_info : ArchInfo;
  clone_tensors : bool;
  _writer_task : Task;
  _method : MergeMethod;
  _tasks : list Task;
  _current_layers : Z;
  _tokenizer_task : option Task;
  _tensor_log : list (string * ConfigReader) }.

Definition set_tasks (st : MergePlanner) (ts : list Task) : MergePlanner :=
  {| config := config st; arch_info := arch_info st; clone_tensors := clone_tensors st;
     _writer_task := _writer_task st; _method := _method st; _tasks := ts;
     _current_layers := _current_layers st; _tokenizer_task := _tokenizer_task st;
     _tensor_log := _tensor_log st |}.

Definition set_log (st : MergePlanner) (l : list (string * ConfigReader)) : MergePlanner :=
  {| config := config st; arch_info := arch_info st; clone_tensors := clone_tensors st;
     _writer_task := _writer_task st; _method := _method st; _tasks := _tasks st;
     _current_layers := _current_layers st; _tokenizer_task := _tokenizer_task st;
     _tensor_log := l |}.

(** A method call on the planner: it may raise, and otherwise returns a value
    and the updated attributes. *)
Definition PM (A : Type) : Type := MergePlanner -> PyError + (A * MergePlanner).

Definition pm_ret {A} (a : A) : PM A := fun st => inr (a, st).
Definition pm_bind {A B} (m : PM A) (k : A -> PM B) : PM B :=
  fun st => match m st with inl e => inl e | inr (a, st') => k a st' end.
Definition pm_raise {A} (e : PyError) : PM A := fun _ => inl e.
Definition pm_get : PM MergePlanner := fun st => inr (st, st).
Definition pm_put (st : MergePlanner) : PM unit := fun _ => inr (tt, st).
Definition pm_lift {A} (r : PyError + A) : PM A :=
  fun st => match r with inl e => inl e | inr a => inr (a, st) end.

Notation "x <- m ;; k" := (pm_bind m (fun x => k))
  (at level 61, m at next level, right associativity).

(** [for x in xs: body(x)]. *)
Fixpoint pm_for {A} (xs : list A) (body : A -> PM unit) : PM unit :=
  match xs with
  | [] => pm_ret tt
  | x :: xs' => _ <- body x ;; pm_for xs' body
  end.

(** [for x in xs: acc = body(acc, x)] with an accumulator. *)
Fixpoint pm_fold {A B} (xs : list A) (acc : B) (body : B -> A -> PM B) : PM B :=
  match xs with
  | [] => pm_ret acc
  | x :: xs' => acc' <- body acc x ;; pm_fold xs' acc' body
  end.

(** [xs[0]] and [xs[-1]]. *)
Definition py_first {A} (xs : list A) : PyError + A :=
  match xs with [] => inl (IndexError "list index out of range") | x :: _ => inr x end.
Definition py_last {A} (xs : list A) : PyError + A :=
  match rev xs with [] => inl (IndexError "list index out of range") | x :: _ => inr x end.

(** [self.config.slices[i]] where [slices] may be [None]. *)
Definition py_opt_list {A} (o : option (list A)) : PyError + list A :=
  match o with
  | None => inl (TypeError "'NoneType' object is not subscriptable")
  | Some l => inr l
  end.

Section Planner.

(** External collaborators, outside the embedded files: the merge-method
    registry [merge_methods.get], each method's declared [parameters()] and
    [tensor_parameters()], and the scoped lookup behind
    [ConfigReader.parameter]. *)
Variable merge_methods_get : string -> PyError + MergeMethod.
Variable method_parameters : MergeMethod -> list ConfigParameterDef.
Variable method_tensor_parameters : MergeMethod -> list ConfigParameterDef.
Variable cfg_lookup : ConfigReader -> string -> option ModelReference -> option Value.

(** Modelled from the spec: [ConfigReader.parameter] (absent from the
    sources), §4.5: the most specific value found by the scoped lookup;
    when there is none, a required parameter is a configuration error naming
    the parameter and the context, and an optional one takes its default. *)
Definition cfg_parameter (r : ConfigReader) (name : string) (m : option ModelReference)
  (required : bool) (default : Value) : PyError + Value :=
  match cfg_lookup r name m with
  | Some v => inr v
  | None =>
      if required
      then inl (ConfigError (String.append "Missing required parameter " name))
      else inr default
  end.

(** [MergePlanner.__init__(self, config, arch_info, out_path, options)]. *)
Definition MergePlanner_init (c : MergeConfiguration) (a : ArchInfo) (out_path : string)
  (options : MergeOptions) : PyError + MergePlanner :=
  match merge_methods_get (merge_method c) with
  | inl e => inl e
  | inr m =>
      inr {| config := c; arch_info := a; clone_tensors := clone_tensors_opt options;
             _method := m;
             _writer_task := TensorWriterTask out_path (out_shard_size options);
             _tokenizer_task :=
               if negb (String.eqb (merge_method c) "")
               then Some (BuildTokenizer c (trust_remote_code options)) else None;
             _tasks := []; _current_layers := 0; _tensor_log := [] |}
  end.

(** [MergePlanner.plan_tensor]. *)
Definition plan_tensor (name : string) (names_in : list string)
  (models : list ModelReference) (cfg_reader : ConfigReader) : PM unit :=
  st <- pm_get ;;
  let is_embed := existsb (String.eqb name) (embed_weights (arch_info st)) in
  let tensor_merge_method :=
    match _tokenizer_task st with
    | Some tok => if is_embed then TokenizerPermutationMerge tok else _method st
    | None => _method st
    end in
  let cfg_g := for_tensor (for_in_slices cfg_reader None) name in
  global_params <- pm_fold (method_parameters tensor_merge_method) []
    (fun gp p =>
       v <- pm_lift (cfg_parameter cfg_g (p_name p) None (p_required p) (p_default_value p)) ;;
       pm_ret (dict_set String.eqb gp (p_name p) v)) ;;
  tensor_params <- pm_fold (combine models names_in) []
    (fun tp mn =>
       let (m, name_in) := mn in
       let cfg_m := for_tensor cfg_reader name_in in
       pm_fold (method_tensor_parameters tensor_merge_method) (dict_set String.eqb tp m [])
         (fun tp' p =>
            v <- pm_lift (cfg_parameter cfg_m (p_name p) (Some m) (p_required p)
                            (p_default_value p)) ;;
            let cur := match find (fun kv => String.eqb (fst kv) m) tp' with
                       | Some kv => snd kv | None => [] end in
            pm_ret (dict_set String.eqb tp' m (dict_set String.eqb cur (p_name p) v)))) ;;
  let gather_tensors :=
    GatherTensors (dict_of_list String.eqb (combine models names_in)) (dtype (config st)) in
  let base := if truthy_str (base_model (config st)) then base_model (config st) else None in
  let tensor_task :=
    MergeTensorTask tensor_merge_method name gather_tensors global_params tensor_params base in
  let save_task := SaveTensor name tensor_task (_writer_task st) (clone_tensors st) in
  st' <- pm_get ;;
  pm_put (set_log (set_tasks st' (_tasks st' ++ [save_task]))
                  (_tensor_log st' ++ [(name, cfg_reader)])).

(** [MergePlanner.plan_layer]. [_current_layers] is read and never
    updated, as in the source. *)
Definition plan_layer (srcs : list InputSliceDefinition) (layer_offset : Z) (t : Q)
  (cfg_reader : ConfigReader) : PM unit :=
  st <- pm_get ;;
  pm_for (layer_weight_formats (arch_info st)) (fun name_format =>
    st' <- pm_get ;;
    let name_out := format_idx name_format (_current_layers st') in
    let names_in :=
      map (fun s => format_idx name_format (fst (layer_range s) + layer_offset)) srcs in
    plan_tensor name_out names_in (map model srcs) (with_t cfg_reader t)).

(** The fraction computed in [plan_slice]'s loop body. *)
Definition slice_t (num_layers idx : Z) : Q :=
  if Z.gtb num_layers 1 then inject_Z idx / inject_Z (num_layers - 1) else 1%Q.

(** [range(n)]. *)
Definition py_range (n : Z) : list Z := map Z.of_nat (seq 0 (Z.to_nat n)).

Definition slice_length_msg : string :=
  "All inputs to a slice must contain the same number of layers".

(** [MergePlanner.plan_slice]. *)
Definition plan_slice (definition : OutputSliceDefinition) : PM unit :=
  let slice_lengths :=
    map (fun s => snd (layer_range s) - fst (layer_range s)) (sources definition) in
  (* [all(s == slice_lengths[0] for s in slice_lengths)]: the index is only
     evaluated when the list is non-empty *)
  let all_equal :=
    match slice_lengths with
    | [] => true
    | l0 :: _ => forallb (fun s => Z.eqb s l0) slice_lengths
    end in
  if negb all_equal then pm_raise (RuntimeError slice_length_msg) else
  num_layers <- pm_lift (py_first slice_lengths) ;;
  st <- pm_get ;;
  let cfg_reader := mk_ConfigReader (config st) (Some definition) 0%Q None in
  pm_for (py_range num_layers) (fun idx =>
    let t := slice_t num_layers idx in
    plan_layer (sources definition) idx t
      (for_in_slices cfg_reader (Some (sources definition)))).

(** [MergePlanner.plan]. *)
Definition plan : PM (list Task) :=
  st0 <- pm_get ;;
  _ <- pm_put (set_tasks st0 []) ;;
  pm_bind (pm_for (pre_weights (arch_info st0)) (fun weight_name =>
    sl <- pm_lift (py_opt_list (slices (config st0))) ;;
    s0 <- pm_lift (py_first sl) ;;
    plan_tensor weight_name (repeat weight_name (length (sources s0)))
      (map model (sources s0))
      (mk_ConfigReader (config st0) None 0%Q (Some weight_name)))) (fun _ =>
  sl <- pm_lift (match slices (config st0) with
                 | None => inl (TypeError "'NoneType' object is not iterable")
                 | Some l => inr l end) ;;
  _ <- pm_for sl plan_slice ;;
  _ <- pm_for (post_weights (arch_info st0)) (fun weight_name =>
    sl' <- pm_lift (py_opt_list (slices (config st0))) ;;
    s1 <- pm_lift (py_last sl') ;;
    plan_tensor weight_name (repeat weight_name (length (sources s1)))
      (map model (sources s1))
      (mk_ConfigReader (config st0) None 1%Q (Some weight_name))) ;;
  st <- pm_get ;;
  let fin := FinalizeModel (_tasks st) (_writer_task st) in
  _ <- pm_put (set_tasks st (_tasks st ++ [fin])) ;;
  st' <- pm_get ;;
  pm_ret (_tasks st' ++ match _tokenizer_task st' with Some tok => [tok] | None => [] end)).

End Planner.

(** ** Calling a Python function with positional and keyword arguments *)

Inductive PyArg :=
| ASelf
| AConfig (c : MergeConfiguration)
| AArch (a : ArchInfo)
| AStr (s : string)
| AInt (z : Z)
| ABool (b : bool)
| AOptions (o : MergeOptions).

(** CPython's argument binding for a function whose parameters [params] have
    no defaults: positional arguments fill the first parameters; each keyword
    must name a parameter not already bound (an unknown keyword raises
    [TypeError] at once); a parameter left unbound then raises [TypeError]. *)
Definition bind_call (fname : string) (params : list string) (pos : list PyArg)
  (kws : list (string * PyArg)) : PyError + list (string * PyArg) :=
  if Nat.ltb (length params) (length pos)
  then inl (TypeError (String.append fname "() takes too many positional arguments"))
  else
    let bind_kw acc kv :=
      match acc with
      | inl e => inl e
      | inr b =>
          if negb (existsb (String.eqb (fst kv)) params)
          then inl (TypeError (String.append fname
                 (String.append "() got an unexpected keyword argument '"
                   (String.append (fst kv) "'"))))
          else if existsb (fun q => String.eqb (fst q) (fst kv)) b
          then inl (TypeError (String.append fname
                 (String.append "() got multiple values for argument '"
                   (String.append (fst kv) "'"))))
          else inr (b ++ [kv])
      end in
    match fold_left bind_kw kws (inr (combine (firstn (length pos) params) pos)) with
    | inl e => inl e
    | inr b =>
        match filter (fun p => negb (existsb (fun q => String.eqb (fst q) p) b)) params with
        | [] => inr b
        | p :: _ => inl (TypeError (String.append fname
                     (String.append "() missing required positional argument: '"
                       (String.append p "'"))))
        end
    end.

Definition lookup_arg (b : list (string * PyArg)) (n : string) : option PyArg :=
  match find (fun q => String.eqb (fst q) n) b with Some q => Some (snd q) | None => None end.

Definition MergePlanner_init_params : list string :=
  ["self"; "config"; "arch_info"; "out_path"; "options"].

(** ** The merge driver ([run_merge]) *)

(** The observable effects of a run, in order. *)
Inductive Event :=
| EvSetSeed (seed : Z)
| EvPlan
| EvWarmup (m : ModelReference)
| EvExecute (tasks : list Task) (math_device storage_device : string)
| EvSaveConfig (out_path : string) (num_layers : option Z)
| EvSaveTokenizer (out_path : string).

(** Values yielded by [Executor.run()]: a [TokenizerInfo] or anything else. *)
Inductive ExecValue := TokenizerInfo (tokenizer : string) | OtherValue.

Definition RM (A : Type) : Type := list Event -> (PyError + A) * list Event.

Definition rm_ret {A} (a : A) : RM A := fun l => (inr a, l).
Definition rm_bind {A B} (m : RM A) (k : A -> RM B) : RM B :=
  fun l => match m l with (inl e, l') => (inl e, l') | (inr a, l') => k a l' end.
Definition rm_raise {A} (e : PyError) : RM A := fun l => (inl e, l).
Definition rm_emit (ev : Event) : RM unit := fun l => (inr tt, l ++ [ev]).
Definition rm_lift {A} (r : PyError + A) : RM A := fun l => (r, l).

Notation "x <<- m ;; k" := (rm_bind m (fun x => k))
  (at level 61, m at next level, right associativity).

Fixpoint rm_for {A} (xs : list A) (body : A -> RM unit) : RM unit :=
  match xs with
  | [] => rm_ret tt
  | x :: xs' => _ <<- body x ;; rm_for xs' body
  end.

Definition no_output_msg : string := "No output requested".
Definition crimes_msg : string :=
  "Must specify --allow-crimes to attempt to mix different architectures".

(** [all(a == model_arch_info[0] for a in model_arch_info[1:])]. *)
Definition arch_all_equal (infos : list ArchInfo) : bool :=
  match infos with
  | [] => true
  | a0 :: rest => forallb (fun a => ArchInfo_eqb a a0) rest
  end.

(** The layer count written to the output configuration:
    [sum(s.sources[0].layer_range[1] - s.sources[0].layer_range[0] for s in slices)];
    an exception there is caught and logged, leaving the field unset. *)
Definition out_num_layers (o : option (list OutputSliceDefinition)) : option Z :=
  match o with
  | None => None
  | Some sl =>
      fold_left (fun acc s =>
        match acc, sources s with
        | Some n, src0 :: _ => Some (n + (snd (layer_range src0) - fst (layer_range src0)))
        | _, _ => None
        end) sl (Some 0)
  end.

Section Driver.

Variable merge_methods_get : string -> PyError + MergeMethod.
Variable method_parameters : MergeMethod -> list ConfigParameterDef.
Variable method_tensor_parameters : MergeMethod -> list ConfigParameterDef.
Variable cfg_lookup : ConfigReader -> string -> option ModelReference -> option Value.

(** External collaborators of [run_merge]: [MergeConfiguration.referenced_models],
    [get_architecture_info(m.config())], [Executor(...).run()] and
    [_get_donor_tokenizer] (which catches its own errors). *)
Variable referenced_models : MergeConfiguration -> list ModelReference.
Variable get_architecture_info : ModelReference -> ArchInfo.
Variable executor_run : list Task -> string -> string -> PyError + list (Task * ExecValue).
Variable donor_tokenizer : MergeConfiguration -> option string.

(** The call [MergePlanner(config, arch_info, **kwargs)]: argument binding
    against [__init__]'s signature, then the constructor body. *)
Definition call_MergePlanner (pos : list PyArg) (kws : list (string * PyArg))
  : PyError + MergePlanner :=
  match bind_call "MergePlanner.__init__" MergePlanner_init_params (ASelf :: pos) kws with
  | inl e => inl e
  | inr b =>
      match lookup_arg b "config", lookup_arg b "arch_info", lookup_arg b "out_path",
            lookup_arg b "options" with
      | Some (AConfig c), Some (AArch a), Some (AStr p), Some (AOptions o) =>
          MergePlanner_init merge_methods_get c a p o
      | _, _, _, _ => inl (AttributeError "unexpected argument type")
      end
  end.

(** [run_merge(merge_config, out_path, options)]. The loader-cache set-up
    only assigns attributes and has no effect on the run. *)
Definition run_merge (merge_config : MergeConfiguration) (out_path : string)
  (options : MergeOptions) : RM unit :=
  _ <<- match random_seed options with
        | Some z => rm_emit (EvSetSeed z)
        | None => rm_ret tt
        end ;;
  if negb (truthy_list (models merge_config)) && negb (truthy_list (slices merge_config))
  then rm_raise (RuntimeError no_output_msg) else
  let model_arch_info := map get_architecture_info (referenced_models merge_config) in
  _ <<- (if negb (allow_crimes options) then
           if negb (arch_all_equal model_arch_info)
           then rm_raise (RuntimeError crimes_msg) else rm_ret tt
         else rm_ret tt) ;;
  arch_info <<- rm_lift (py_first model_arch_info) ;;
  planner <<- rm_lift (call_MergePlanner
                 [AConfig merge_config; AArch arch_info]
                 [("out_path", AStr out_path);
                  ("max_shard_size", AInt (out_shard_size options));
                  ("clone_tensors", ABool (clone_tensors_opt options))]) ;;
  _ <<- rm_emit EvPlan ;;
  targets <<- rm_lift (match plan method_parameters method_tensor_parameters cfg_lookup planner with
                       | inl e => inl e
                       | inr (ts, _) => inr ts
                       end) ;;
  _ <<- rm_for (referenced_models merge_config) (fun m => rm_emit (EvWarmup m)) ;;
  let math_device := if cuda options then "cuda" else "cpu" in
  let storage_device := if low_cpu_memory options then "cuda" else "cpu" in
  _ <<- rm_emit (EvExecute targets math_device storage_device) ;;
  results <<- rm_lift (executor_run targets math_device storage_device) ;;
  let tokenizer :=
    fold_left (fun acc tv => match snd tv with TokenizerInfo tk => Some tk | _ => acc end)
      results None in
  _ <<- rm_emit (EvSaveConfig out_path (out_num_layers (slices merge_config))) ;;
  let tokenizer :=
    match tokenizer with
    | None => if copy_tokenizer options then donor_tokenizer merge_config else None
    | Some tk => Some tk
    end in
  match tokenizer with
  | Some _ => rm_emit (EvSaveTokenizer out_path)
  | None => rm_ret tt
  end.

End Driver.

(** ** Concrete collaborators, for evaluating the embedding *)

(** A registry knowing the methods used in [tests/test_merges.py]. *)
Definition example_registry (name : string) : PyError + MergeMethod :=
  if existsb (String.eqb name) ["linear"; "slerp"; "task_arithmetic"; "passthrough"]
  then inr (RegisteredMethod name)
  else inl (RuntimeError (String.append "Unimplemented merge method " name)).

Definition no_parameters (_ : MergeMethod) : list ConfigParameterDef := [].

Definition empty_lookup (_ : ConfigReader) (_ : string) (_ : option ModelReference)
  : option Value := None.

(** Modelled from the spec: [MergeConfiguration.referenced_models] (absent
    from the sources): the base model, the whole-model list and every slice
    source, each model once, in order of first mention. *)
Definition referenced_models_spec (c : MergeConfiguration) : list ModelReference :=
  let all :=
    match base_model c with Some b => [b] | None => [] end
    ++ match models c with Some ms => map imd_model ms | None => [] end
    ++ match slices c with
       | Some sl => flat_map (fun s => map model (sources s)) sl
       | None => []
       end in
  fold_left (fun acc m => if existsb (String.eqb m) acc then acc else acc ++ [m]) all [].

(** A decoder-only architecture in the shape of [mergekit.architecture]'s
    static tables. *)
Definition llama_like_arch : ArchInfo := {|
  pre_weights := ["model.embed_tokens.weight"];
  post_weights := ["model.norm.weight"; "lm_head.weight"];
  layer_weight_formats := [[Lit "model.layers."; IdxField; Lit ".mlp.weight"]];
  embed_weights := ["model.embed_tokens.weight"; "lm_head.weight"];
  num_layers_config_key := "num_hidden_layers" |}.

Definition single_arch (_ : ModelReference) : ArchInfo := llama_like_arch.

Definition no_executor (_ : list Task) (_ _ : string) : PyError + list (Task * ExecValue) :=
  inr [].

Definition no_donor (_ : MergeConfiguration) : option string := None.

(** The configuration of [test_gpt2_copy]. *)
Definition gpt2_copy_config : MergeConfiguration := {|
  merge_method := "passthrough";
  slices := None;
  models := Some [{| imd_model := "gpt2" |}];
  base_model := None;
  dtype := Some "bfloat16" |}.

(** The configuration of [test_gpt2_stack]: layers [0, 12) of gpt2 twice. *)
Definition gpt2_stack_config : MergeConfiguration := {|
  merge_method := "passthrough";
  slices := Some [{| sources := [{| model := "gpt2"; layer_range := (0, 12) |};
                                 {| model := "gpt2"; layer_range := (0, 12) |}] |}];
  models := None;
  base_model := None;
  dtype := Some "bfloat16" |}.

(** One source model, two layers. *)
Definition two_layer_config : MergeConfiguration := {|
  merge_method := "passthrough";
  slices := Some [{| sources := [{| model := "m"; layer_range := (0, 2) |}] |}];
  models := None;
  base_model := None;
  dtype := None |}.

Definition plan_with (c : MergeConfiguration) (a : ArchInfo) : PyError + (list Task * MergePlanner) :=
  match MergePlanner_init example_registry c a "out" default_MergeOptions with
  | inl e => inl e
  | inr st => plan no_parameters no_parameters empty_lookup st
  end.

(** The planner [MergePlanner.__init__] builds for [gpt2_stack_config]. *)
Definition stack_planner : MergePlanner := {|
  config := gpt2_stack_config; arch_info := llama_like_arch; clone_tensors := false;
  _writer_task := TensorWriterTask "out" 5000000000;
  _method := RegisteredMethod "passthrough"; _tasks := []; _current_layers := 0;
  _tokenizer_task := Some (BuildTokenizer gpt2_stack_config false); _tensor_log := [] |}.

(** A slice whose two sources span 2 and 3 layers. *)
Definition unequal_slice : OutputSliceDefinition :=
  {| sources := [{| model := "model_a"; layer_range := (0, 2) |};
                 {| model := "model_b"; layer_range := (0, 3) |}] |}.

(** A slice of three layers from one model. *)
Definition three_layer_slice : OutputSliceDefinition :=
  {| sources := [{| model := "model_a"; layer_range := (4, 7) |}] |}.

(** Two models whose architectures differ in their layer count key. *)
Definition mixed_arch (m : ModelReference) : ArchInfo :=
  if String.eqb m "model_b"
  then {| pre_weights := pre_weights llama_like_arch;
          post_weights := post_weights llama_like_arch;
          layer_weight_formats := layer_weight_formats llama_like_arch;
          embed_weights := embed_weights llama_like_arch;
          num_layers_config_key := "n_layer" |}
  else llama_like_arch.

(** The shape of [two_model_config] in [tests/test_merges.py]. *)
Definition two_model_config : MergeConfiguration := {|
  merge_method := "linear";
  slices := None;
  models := Some [{| imd_model := "model_a" |}; {| imd_model := "model_b" |}];
  base_model := None;
  dtype := Some "bfloat16" |}.

(** * Properties *)

(** ** The merge driver *)

Definition unexpected_kw_msg : string :=
  "MergePlanner.__init__() got an unexpected keyword argument 'max_shard_size'".

(** The events a run records before its first check. *)
Definition seed_log (o : MergeOptions) : list Event :=
  match random_seed o with Some z => [EvSetSeed z] | None => [] end.

(** [merge_config.models or merge_config.slices]. *)
Definition output_requested (c : MergeConfiguration) : bool :=
  truthy_list (models c) || truthy_list (slices c).

(** The attributes planning reads but never writes. *)
Definition frame (st : MergePlanner) :=
  (config st, arch_info st, clone_tensors st, _writer_task st, _method st,
   _current_layers st, _tokenizer_task st).

(** [st'] extends [st]: same frame, only save tasks appended (one per
    logged [plan_tensor] call), and [entries] appended to the call log. *)
Definition grows (st st' : MergePlanner) (entries : list (string * ConfigReader)) : Prop :=
  frame st' = frame st /\
  (exists nt, _tasks st' = _tasks st ++ nt /\ forallb is_save_task nt = true /\
              length nt = length entries) /\
  _tensor_log st' = _tensor_log st ++ entries.

(** The layer lengths [plan_slice] compares. *)
Definition slice_lengths (d : OutputSliceDefinition) : list Z :=
  map (fun s => snd (layer_range s) - fst (layer_range s)) (sources d).

(** [all(s == slice_lengths[0] for s in slice_lengths)]. *)
Definition lengths_all_equal (d : OutputSliceDefinition) : bool :=
  match slice_lengths d with
  | [] => true
  | l0 :: _ => forallb (fun s => Z.eqb s l0) (slice_lengths d)
  end.




(** [d.get(k)] on a dict with string keys. *)
Definition dict_get {V} (d : list (string * V)) (k : string) : option V :=
  option_map snd (find (fun kv => String.eqb (fst kv) k) d).

(** The value paired with [k] by the last pair of [l] whose key is [k]. *)
Fixpoint assoc_last {V} (l : list (string * V)) (k : string) : option V :=
  match l with
  | [] => None
  | (k', v) :: l' =>
      match assoc_last l' k with
      | Some w => Some w
      | None => if String.eqb k' k then Some v else None
      end
  end.

(** The layer count of a slice: its first source's length ([0] without sources). *)
Definition slice_num_layers (d : OutputSliceDefinition) : Z :=
  match slice_lengths d with l0 :: _ => l0 | [] => 0 end.

(** The gather task of a planned save task. *)
Definition save_gather (t : Task) : option Task :=
  match t with
  | SaveTensor _ (MergeTensorTask _ _ g _ _ _) _ _ => Some g
  | _ => None
  end.

(** A save task that writes through the planner's writer task, with the
    planner's clone flag. *)
Definition save_of (st : MergePlanner) (t : Task) : Prop :=
  exists n tt, t = SaveTensor n tt (_writer_task st) (clone_tensors st).

(** The save task [plan_tensor] builds for the output [name] from the
    gather task [gather], for some method and parameters. *)
Definition planned_save (st : MergePlanner) (name : string) (gather : Task) (t : Task) : Prop :=
  exists m gp tp,
    t = SaveTensor name
          (MergeTensorTask m name gather gp tp
             (if truthy_str (base_model (config st)) then base_model (config st) else None))
          (_writer_task st) (clone_tensors st).

(** The call in [run_merge] never binds to [MergePlanner.__init__]. *)
Lemma call_MergePlanner_from_run_merge mmg c a p z b :
  call_MergePlanner mmg [AConfig c; AArch a]
    [("out_path", AStr p); ("max_shard_size", AInt z); ("clone_tensors", ABool b)]
  = inl (TypeError unexpected_kw_msg).
Proof. reflexivity. Qed.

(** The whole outcome of [run_merge]: it raises at the first failing check,
    and otherwise at the planner construction, with only the seeding
    recorded. *)
Lemma run_merge_outcome mmg mp mtp lk refm getarch exe donor c out o :
  run_merge mmg mp mtp lk refm getarch exe donor c out o [] =
  (inl (if negb (output_requested c) then RuntimeError no_output_msg
        else if negb (allow_crimes o) && negb (arch_all_equal (map getarch (refm c)))
        then RuntimeError crimes_msg
        else match refm c with
             | [] => IndexError "list index out of range"
             | _ :: _ => TypeError unexpected_kw_msg
             end), seed_log o).
Proof.
  unfold run_merge, output_requested, seed_log, rm_bind, rm_emit, rm_ret, rm_raise, rm_lift.
  destruct (random_seed o); simpl;
  destruct (truthy_list (models c)), (truthy_list (slices c)); simpl; try reflexivity;
  destruct (allow_crimes o), (arch_all_equal (map getarch (refm c))); simpl;
  destruct (refm c); simpl; try reflexivity;
  rewrite call_MergePlanner_from_run_merge; reflexivity.
Qed.

Lemma crimes_msg_neq : crimes_msg <> no_output_msg.
Proof. discriminate. Qed.

(** C2: for every configuration that requests an output and passes the
    architecture check, [run_merge] raises before any planning, warm-up or
    execution: only the seeding is recorded. When at least one model is
    referenced the exception is the [TypeError] of the [MergePlanner] call,
    whose keywords [max_shard_size] and [clone_tensors] [__init__] does not
    declare (and whose [options] argument is missing). *)
Theorem run_merge_raises_before_plan mmg mp mtp lk refm getarch exe donor c out o
  (Hout : output_requested c = true)
  (Harch : allow_crimes o = true \/ arch_all_equal (map getarch (refm c)) = true) :
  exists e,
    run_merge mmg mp mtp lk refm getarch exe donor c out o [] = (inl e, seed_log o) /\
    (refm c <> [] -> e = TypeError unexpected_kw_msg).
Proof.
  rewrite run_merge_outcome, Hout; simpl.
  assert (Hc : negb (allow_crimes o) && negb (arch_all_equal (map getarch (refm c))) = false).
  { destruct Harch as [H | H]; rewrite H; [reflexivity | apply andb_false_r]. }
  rewrite Hc.
  eexists; split; [reflexivity |].
  destruct (refm c); [contradiction | reflexivity].
Qed.

(** C6: [run_merge] raises ["No output requested"] exactly when the
    configuration has neither a non-empty [models] nor a non-empty [slices]
    list; it then records nothing but the seeding. *)
Theorem run_merge_no_output_iff mmg mp mtp lk refm getarch exe donor c out o :
  (fst (run_merge mmg mp mtp lk refm getarch exe donor c out o []) =
     inl (RuntimeError no_output_msg) <-> output_requested c = false) /\
  (output_requested c = false ->
     snd (run_merge mmg mp mtp lk refm getarch exe donor c out o []) = seed_log o).
Proof.
  rewrite run_merge_outcome; simpl.
  destruct (output_requested c); simpl.
  - split; [| discriminate].
    split; [| discriminate].
    destruct (negb (allow_crimes o) && negb (arch_all_equal (map getarch (refm c)))).
    + intro H; exfalso; apply crimes_msg_neq; congruence.
    + destruct (refm c); discriminate.
  - split; [split; reflexivity | reflexivity].
Qed.

(** C7: with [allow_crimes] off and architecture infos that are not all
    equal, [run_merge] raises before any planning (the architecture error
    once an output is requested); with [allow_crimes] on, the architecture
    error is never raised. *)
Theorem run_merge_architecture_check mmg mp mtp lk refm getarch exe donor c out o :
  (allow_crimes o = false -> arch_all_equal (map getarch (refm c)) = false ->
     exists e,
       run_merge mmg mp mtp lk refm getarch exe donor c out o [] = (inl e, seed_log o) /\
       (output_requested c = true -> e = RuntimeError crimes_msg)) /\
  (allow_crimes o = true ->
     fst (run_merge mmg mp mtp lk refm getarch exe donor c out o []) <>
       inl (RuntimeError crimes_msg)).
Proof.
  rewrite run_merge_outcome; simpl.
  split.
  - intros Ha He; rewrite Ha, He; simpl.
    eexists; split; [reflexivity |].
    intro Ho; rewrite Ho; reflexivity.
  - intros Ha; rewrite Ha; simpl.
    destruct (output_requested c); simpl.
    + destruct (refm c); discriminate.
    + intro H; apply crimes_msg_neq; congruence.
Qed.

(** C1 (evaluation at the failing input): on the configuration of
    [test_gpt2_copy], a single-model passthrough merge, with default options,
    [run_merge] does not complete: it raises the [TypeError] of the
    [MergePlanner] call, whatever the architecture, registry, executor and
    tokenizer collaborators. *)
Theorem run_merge_gpt2_copy_raises mmg mp mtp lk getarch exe donor :
  run_merge mmg mp mtp lk referenced_models_spec getarch exe donor
    gpt2_copy_config "out" default_MergeOptions [] =
  (inl (TypeError unexpected_kw_msg), []).
Proof.
  rewrite run_merge_outcome; reflexivity.
Qed.

Lemma run_merge_raises_before_plan_witness :
  output_requested gpt2_copy_config = true /\
  exists e,
    run_merge example_registry no_parameters no_parameters empty_lookup
      referenced_models_spec single_arch no_executor no_donor
      gpt2_copy_config "out" default_MergeOptions [] = (inl e, seed_log default_MergeOptions) /\
    (referenced_models_spec gpt2_copy_config <> [] -> e = TypeError unexpected_kw_msg).
Proof.
  split; [reflexivity |].
  apply (run_merge_raises_before_plan example_registry no_parameters no_parameters
           empty_lookup referenced_models_spec single_arch no_executor no_donor
           gpt2_copy_config "out" default_MergeOptions).
  - reflexivity.
  - right; vm_compute; reflexivity.
Defined.

Lemma run_merge_no_output_iff_witness :
  output_requested gpt2_copy_config = true /\
  fst (run_merge example_registry no_parameters no_parameters empty_lookup
         referenced_models_spec single_arch no_executor no_donor
         gpt2_copy_config "out" default_MergeOptions []) <> inl (RuntimeError no_output_msg).
Proof.
  split; [reflexivity |].
  intro H.
  apply (proj1 (proj1 (run_merge_no_output_iff example_registry no_parameters no_parameters
           empty_lookup referenced_models_spec single_arch no_executor no_donor
           gpt2_copy_config "out" default_MergeOptions))) in H.
  discriminate H.
Defined.

Lemma run_merge_architecture_check_witness :
  exists e,
    run_merge example_registry no_parameters no_parameters empty_lookup
      referenced_models_spec mixed_arch no_executor no_donor
      two_model_config "out" default_MergeOptions [] = (inl e, seed_log default_MergeOptions) /\
    (output_requested two_model_config = true -> e = RuntimeError crimes_msg).
Proof.
  apply (proj1 (run_merge_architecture_check example_registry no_parameters no_parameters
           empty_lookup referenced_models_spec mixed_arch no_executor no_donor
           two_model_config "out" default_MergeOptions)).
  - reflexivity.
  - vm_compute; reflexivity.
Defined.

(** ** The planner: framing lemmas *)

Lemma grows_refl st : grows st st [].
Proof.
  repeat split; [| rewrite app_nil_r; reflexivity].
  exists []; rewrite app_nil_r; auto.
Qed.

Lemma grows_trans st1 st2 st3 e1 e2 :
  grows st1 st2 e1 -> grows st2 st3 e2 -> grows st1 st3 (e1 ++ e2).
Proof.
  intros (F1 & (n1 & T1 & S1 & L1) & G1) (F2 & (n2 & T2 & S2 & L2) & G2).
  split; [congruence |]; split.
  - exists (n1 ++ n2); rewrite T2, T1, app_assoc; split; [reflexivity |].
    rewrite forallb_app, S1, S2, !length_app; auto.
  - rewrite G2, G1, app_assoc; reflexivity.
Qed.

Lemma pm_for_grows {A} (xs : list A) (body : A -> PM unit)
  (P : A -> list (string * ConfigReader) -> Prop) (st0 : MergePlanner) :
  forall st st' u, frame st = frame st0 -> pm_for xs body st = inr (u, st') ->
  (forall x st st1 u, In x xs -> frame st = frame st0 -> body x st = inr (u, st1) ->
     exists e, P x e /\ grows st st1 e) ->
  exists es, Forall2 P xs es /\ grows st st' (concat es).
Proof.
  induction xs as [| x xs IH]; intros st st' u Hf H Hstep.
  - simpl in H; unfold pm_ret in H; injection H as _ <-.
    exists []; split; [constructor | apply grows_refl].
  - simpl in H; unfold pm_bind in H.
    destruct (body x st) as [e | [v st1]] eqn:E; [discriminate |].
    destruct (Hstep x st st1 v (or_introl eq_refl) Hf E) as (e1 & HP & G1).
    assert (Hf1 : frame st1 = frame st0) by (destruct G1 as [F1 _]; congruence).
    destruct (IH st1 st' u Hf1 H (fun y s s1 w Hy => Hstep y s s1 w (or_intror Hy)))
      as (es & HF & G2).
    exists (e1 :: es); split; [constructor; assumption |].
    simpl; apply (grows_trans _ _ _ _ _ G1 G2).
Qed.

Lemma pm_for_error {A} (xs : list A) (body : A -> PM unit) st e :
  pm_for xs body st = inl e -> exists x st1, In x xs /\ body x st1 = inl e.
Proof.
  revert st; induction xs as [| x xs IH]; intros st H; simpl in H.
  - discriminate.
  - unfold pm_bind in H.
    destruct (body x st) as [e' | [v st1]] eqn:E.
    + exists x, st; split; [left; reflexivity | congruence].
    + destruct (IH st1 H) as (y & s & Hy & Hb); exists y, s; split; [right |]; assumption.
Qed.

Lemma pm_fold_pure {A B} (xs : list A) (body : B -> A -> PM B) :
  (forall acc x st r st1, body acc x st = inr (r, st1) -> st1 = st) ->
  forall acc st r st', pm_fold xs acc body st = inr (r, st') -> st' = st.
Proof.
  intros Hb; induction xs as [| x xs IH]; intros acc st r st' H; simpl in H.
  - unfold pm_ret in H; congruence.
  - unfold pm_bind in H.
    destruct (body acc x st) as [e | [a st1]] eqn:E; [discriminate |].
    apply Hb in E; subst st1; exact (IH _ _ _ _ H).
Qed.

Lemma pm_fold_error {A B} (xs : list A) (acc : B) (body : B -> A -> PM B) st e :
  pm_fold xs acc body st = inl e -> exists acc' x st1, body acc' x st1 = inl e.
Proof.
  revert acc st; induction xs as [| x xs IH]; intros acc st H; simpl in H.
  - discriminate.
  - unfold pm_bind in H.
    destruct (body acc x st) as [e' | [a st1]] eqn:E.
    + exists acc, x, st; congruence.
    + exact (IH _ _ H).
Qed.

Lemma cfg_parameter_error lk r n m req d e :
  cfg_parameter lk r n m req d = inl e -> exists msg, e = ConfigError msg.
Proof.
  unfold cfg_parameter; destruct (lk r n m); [discriminate |].
  destruct req; [intro H; injection H as <-; eauto | discriminate].
Qed.

(** ** The planner: [plan_tensor] *)

Lemma plan_tensor_ok mp mtp lk name names_in models cfg st u st' :
  plan_tensor mp mtp lk name names_in models cfg st = inr (u, st') ->
  exists gather gp tp base,
    st' = set_log
            (set_tasks st (_tasks st ++
               [SaveTensor name
                  (MergeTensorTask
                     (match _tokenizer_task st with
                      | Some tok =>
                          if existsb (String.eqb name) (embed_weights (arch_info st))
                          then TokenizerPermutationMerge tok else _method st
                      | None => _method st
                      end) name gather gp tp base)
                  (_writer_task st) (clone_tensors st)]))
            (_tensor_log st ++ [(name, cfg)]).
Proof.
  unfold plan_tensor, pm_bind, pm_get, pm_put; cbv zeta.
  intro H.
  match type of H with
  | context [pm_fold ?xs ?a ?b st] => destruct (pm_fold xs a b st) as [e | [gp st1]] eqn:E1
  end; [discriminate |].
  assert (st1 = st).
  { refine (pm_fold_pure _ _ _ _ _ _ _ E1).
    intros acc x s r s1 Hb; unfold pm_bind, pm_lift, pm_ret in Hb.
    destruct (cfg_parameter _ _ _ _ _ _); [discriminate | congruence]. }
  subst st1.
  match type of H with
  | context [pm_fold ?xs ?a ?b st] => destruct (pm_fold xs a b st) as [e | [tp st2]] eqn:E2
  end; [discriminate |].
  assert (st2 = st).
  { refine (pm_fold_pure _ _ _ _ _ _ _ E2).
    intros acc [m n] s r s1 Hb.
    refine (pm_fold_pure _ _ _ _ _ _ _ Hb).
    intros acc' x s' r' s1' Hb'; unfold pm_bind, pm_lift, pm_ret in Hb'.
    destruct (cfg_parameter _ _ _ _ _ _); [discriminate | congruence]. }
  subst st2.
  injection H as _ <-.
  do 4 eexists; reflexivity.
Qed.

Lemma plan_tensor_grows mp mtp lk name names_in models cfg st u st' :
  plan_tensor mp mtp lk name names_in models cfg st = inr (u, st') ->
  grows st st' [(name, cfg)].
Proof.
  intro H; destruct (plan_tensor_ok _ _ _ _ _ _ _ _ _ _ H) as (g & gp & tp & b & ->).
  split; [reflexivity |]; split; [| reflexivity].
  eexists; split; [reflexivity | split; reflexivity].
Qed.

Lemma plan_tensor_error mp mtp lk name names_in models cfg st e :
  plan_tensor mp mtp lk name names_in models cfg st = inl e -> exists msg, e = ConfigError msg.
Proof.
  unfold plan_tensor, pm_bind, pm_get, pm_put; cbv zeta.
  intro H.
  match type of H with
  | context [pm_fold ?xs ?a ?b st] => destruct (pm_fold xs a b st) as [e1 | [gp st1]] eqn:E1
  end.
  { injection H as ->.
    destruct (pm_fold_error _ _ _ _ _ E1) as (acc & x & s & Hb).
    unfold pm_bind, pm_lift, pm_ret in Hb.
    destruct (cfg_parameter _ _ _ _ _ _) eqn:Ec; [| discriminate].
    injection Hb as ->; exact (cfg_parameter_error _ _ _ _ _ _ _ Ec). }
  match type of H with
  | context [pm_fold ?xs ?a ?b st1] => destruct (pm_fold xs a b st1) as [e2 | [tp st2]] eqn:E2
  end; [| discriminate].
  injection H as ->.
  destruct (pm_fold_error _ _ _ _ _ E2) as (acc & [m n] & s & Hb).
  destruct (pm_fold_error _ _ _ _ _ Hb) as (acc' & x & s' & Hb').
  unfold pm_bind, pm_lift, pm_ret in Hb'.
  destruct (cfg_parameter _ _ _ _ _ _) eqn:Ec; [| discriminate].
  injection Hb' as ->; exact (cfg_parameter_error _ _ _ _ _ _ _ Ec).
Qed.

Lemma Forall2_concat_eq {A B} (g : A -> list B) xs es :
  Forall2 (fun x e => e = g x) xs es -> concat es = flat_map g xs.
Proof. induction 1; simpl; [reflexivity | subst; f_equal; assumption]. Qed.

Lemma flat_map_single {A B} (g : A -> B) xs : flat_map (fun x => [g x]) xs = map g xs.
Proof. induction xs; simpl; [reflexivity | f_equal; assumption]. Qed.

Lemma map_flat_map' {A B C} (h : B -> C) (g : A -> list B) xs :
  map h (flat_map g xs) = flat_map (fun x => map h (g x)) xs.
Proof. induction xs; simpl; [reflexivity | rewrite map_app; f_equal; assumption]. Qed.

Lemma map_to_repeat {A B} (b : B) (xs : list A) : map (fun _ => b) xs = repeat b (length xs).
Proof. induction xs; simpl; [reflexivity | f_equal; assumption]. Qed.

Lemma frame_eq_inv st st' :
  frame st' = frame st ->
  config st' = config st /\ arch_info st' = arch_info st /\ _current_layers st' = _current_layers st.
Proof. unfold frame; intro H; injection H; intros; repeat split; assumption. Qed.

Lemma in_py_range idx n : In idx (py_range n) <-> 0 <= idx < n.
Proof.
  unfold py_range; rewrite in_map_iff; split.
  - intros (k & <- & Hk); apply in_seq in Hk; lia.
  - intro Hi; exists (Z.to_nat idx); split; [lia | apply in_seq; lia].
Qed.

(** ** The planner: [plan_layer] and [plan_slice] *)

Lemma plan_layer_ok mp mtp lk srcs off t cfg st u st' :
  plan_layer mp mtp lk srcs off t cfg st = inr (u, st') ->
  grows st st' (map (fun f => (format_idx f (_current_layers st), with_t cfg t))
                  (layer_weight_formats (arch_info st))).
Proof.
  unfold plan_layer; unfold pm_bind at 1; unfold pm_get at 1; cbv beta iota.
  intro H.
  destruct (pm_for_grows _ _
              (fun f e => e = [(format_idx f (_current_layers st), with_t cfg t)])
              st st st' u eq_refl H) as (es & HF & G).
  - intros f s s1 w _ Hf Hb.
    unfold pm_bind, pm_get in Hb; cbv beta iota in Hb.
    apply plan_tensor_grows in Hb.
    destruct (frame_eq_inv _ _ Hf) as (_ & _ & Hc).
    rewrite Hc in Hb; eexists; split; [reflexivity | exact Hb].
  - rewrite (Forall2_concat_eq _ _ _ HF), flat_map_single in G; exact G.
Qed.

Lemma plan_layer_error mp mtp lk srcs off t cfg st e :
  plan_layer mp mtp lk srcs off t cfg st = inl e -> exists msg, e = ConfigError msg.
Proof.
  unfold plan_layer; unfold pm_bind at 1; unfold pm_get at 1; cbv beta iota.
  intro H; destruct (pm_for_error _ _ _ _ H) as (f & s & _ & Hb).
  unfold pm_bind, pm_get in Hb; cbv beta iota in Hb.
  exact (plan_tensor_error _ _ _ _ _ _ _ _ _ Hb).
Qed.

Lemma plan_slice_ok mp mtp lk d st u st' :
  plan_slice mp mtp lk d st = inr (u, st') ->
  exists n, py_first (slice_lengths d) = inr n /\
    grows st st'
      (flat_map (fun idx =>
         map (fun f => (format_idx f (_current_layers st),
                        with_t (for_in_slices (mk_ConfigReader (config st) (Some d) 0%Q None)
                                  (Some (sources d))) (slice_t n idx)))
           (layer_weight_formats (arch_info st)))
        (py_range n)).
Proof.
  unfold plan_slice; fold (slice_lengths d); cbv zeta.
  match goal with |- context [if ?b then _ else _] => destruct b end;
    [unfold pm_raise; discriminate |].
  unfold pm_bind, pm_lift, pm_get.
  destruct (py_first (slice_lengths d)) as [e | n] eqn:En; [discriminate |].
  intro H; exists n; split; [reflexivity |].
  destruct (pm_for_grows _ _
              (fun idx e => e =
                 map (fun f => (format_idx f (_current_layers st),
                                with_t (for_in_slices (mk_ConfigReader (config st) (Some d) 0%Q None)
                                          (Some (sources d))) (slice_t n idx)))
                   (layer_weight_formats (arch_info st)))
              st st st' u eq_refl H) as (es & HF & G).
  - intros idx s s1 w _ Hf Hb.
    apply plan_layer_ok in Hb.
    destruct (frame_eq_inv _ _ Hf) as (_ & Ha & Hc).
    rewrite Ha, Hc in Hb; eexists; split; [reflexivity | exact Hb].
  - rewrite (Forall2_concat_eq _ _ _ HF) in G; exact G.
Qed.

Lemma plan_slice_unequal mp mtp lk d st :
  lengths_all_equal d = false ->
  plan_slice mp mtp lk d st = inl (RuntimeError slice_length_msg).
Proof.
  unfold plan_slice; fold (slice_lengths d); cbv zeta.
  unfold lengths_all_equal; intro H; rewrite H; reflexivity.
Qed.

Lemma plan_slice_equal_error mp mtp lk d st e :
  lengths_all_equal d = true -> plan_slice mp mtp lk d st = inl e ->
  e = IndexError "list index out of range" \/ exists msg, e = ConfigError msg.
Proof.
  unfold plan_slice; fold (slice_lengths d); cbv zeta.
  unfold lengths_all_equal; intro Hall; rewrite Hall; simpl negb; cbv iota.
  unfold pm_bind, pm_lift, pm_get.
  destruct (py_first (slice_lengths d)) as [e' | n] eqn:En.
  { intro H; injection H as <-; left.
    unfold py_first in En; destruct (slice_lengths d); congruence. }
  intro H; destruct (pm_for_error _ _ _ _ H) as (idx & s & _ & Hb).
  right; exact (plan_layer_error _ _ _ _ _ _ _ _ _ Hb).
Qed.

Lemma forallb_false_exists {A} (f : A -> bool) xs :
  forallb f xs = false <-> exists x, In x xs /\ f x = false.
Proof.
  induction xs as [| x xs IH]; simpl.
  - split; [discriminate | intros (y & [] & _)].
  - rewrite andb_false_iff, IH; split.
    + intros [H | (y & Hy & Hf)]; eauto.
    + intros (y & [<- | Hy] & Hf); eauto.
Qed.

(** C4: [plan_slice] raises ["All inputs to a slice must contain the same
    number of layers"] exactly when some source's layer-range length differs
    from the first source's; the check comes first, so the error is raised
    whatever the planner's state and before any tensor of the slice is
    planned. The planner built by [MergePlanner.__init__] reads only
    [clone_tensors], [out_shard_size] and [trust_remote_code] from the
    options, so [allow_crimes] has no influence on it. *)
Theorem plan_slice_unequal_lengths_fatal mp mtp lk d :
  (forall st,
     plan_slice mp mtp lk d st = inl (RuntimeError slice_length_msg) <->
     exists s0 s, hd_error (sources d) = Some s0 /\ In s (sources d) /\
       snd (layer_range s) - fst (layer_range s) <>
       snd (layer_range s0) - fst (layer_range s0)) /\
  (forall mmg c a p o o',
     clone_tensors_opt o' = clone_tensors_opt o ->
     out_shard_size o' = out_shard_size o ->
     trust_remote_code o' = trust_remote_code o ->
     MergePlanner_init mmg c a p o' = MergePlanner_init mmg c a p o).
Proof.
  split.
  - intro st; split.
    + intro H.
      destruct (lengths_all_equal d) eqn:Hall.
      * destruct (plan_slice_equal_error _ _ _ _ _ _ Hall H) as [He | (msg & He)];
          discriminate He.
      * unfold lengths_all_equal, slice_lengths in Hall.
        destruct (sources d) as [| s0 rest] eqn:Hs; [discriminate |].
        apply forallb_false_exists in Hall.
        destruct Hall as (l & Hl & Hf).
        apply in_map_iff in Hl; destruct Hl as (s & <- & Hin).
        exists s0, s; split; [reflexivity |]; split; [exact Hin |].
        simpl in Hf; apply Z.eqb_neq in Hf; exact Hf.
    + intros (s0 & s & Hhd & Hin & Hne).
      apply plan_slice_unequal.
      unfold lengths_all_equal, slice_lengths.
      destruct (sources d) as [| s1 rest]; [discriminate |].
      simpl in Hhd; injection Hhd as ->.
      apply forallb_false_exists.
      exists (snd (layer_range s) - fst (layer_range s)); split.
      * apply in_map_iff; exists s; auto.
      * apply Z.eqb_neq; exact Hne.
  - intros mmg c a p o o' H1 H2 H3; unfold MergePlanner_init; rewrite H1, H2, H3; reflexivity.
Qed.

(** C5: in a slice whose first source spans [n] layers, the tensors
    [plan_slice] plans for output layer [idx] (for each [idx] in
    [range(n)], one per layer weight template) receive a configuration
    reader whose fraction [t] is [idx / (n - 1)] when [n > 1] and exactly
    [1] when [n = 1]; the divisor is never zero. *)
Theorem plan_slice_interpolation_fraction mp mtp lk d st u st' s0
  (Hfirst : hd_error (sources d) = Some s0)
  (H : plan_slice mp mtp lk d st = inr (u, st')) :
  let n := snd (layer_range s0) - fst (layer_range s0) in
  exists entries,
    _tensor_log st' = _tensor_log st ++ entries /\
    map (fun e => cr_t (snd e)) entries =
      flat_map (fun idx =>
                  repeat (if Z.ltb 1 n then (inject_Z idx / inject_Z (n - 1))%Q else 1%Q)
                    (length (layer_weight_formats (arch_info st))))
        (py_range n) /\
    (forall idx, In idx (py_range n) <-> 0 <= idx < n) /\
    (1 < n -> ~ (inject_Z (n - 1) == 0)%Q).
Proof.
  intro n.
  destruct (plan_slice_ok _ _ _ _ _ _ _ H) as (n' & Hn & _ & _ & Hlog).
  assert (n' = n) as ->.
  { unfold py_first, slice_lengths in Hn.
    destruct (sources d) as [| s1 rest]; simpl in Hfirst, Hn; [discriminate |].
    injection Hfirst as ->; injection Hn as <-; reflexivity. }
  eexists; split; [exact Hlog |].
  split; [| split].
  - rewrite map_flat_map'; apply flat_map_ext; intro idx.
    rewrite map_map; simpl; rewrite map_to_repeat.
    unfold slice_t; rewrite Z.gtb_ltb; reflexivity.
  - intro idx; apply in_py_range.
  - intro Hgt; unfold Qeq; simpl; lia.
Qed.

(** C8: the merge computation of the tensor [plan_tensor] saves is the
    tokenizer-permutation merge over the planner's tokenizer task when the
    name is an embedding weight and that task exists, and the configured
    merge method otherwise. *)
Theorem plan_tensor_merge_method mp mtp lk name names_in models cfg st u st'
  (H : plan_tensor mp mtp lk name names_in models cfg st = inr (u, st')) :
  exists m gather gp tp base,
    _tasks st' = _tasks st ++
      [SaveTensor name (MergeTensorTask m name gather gp tp base)
         (_writer_task st) (clone_tensors st)] /\
    (forall tok, In name (embed_weights (arch_info st)) -> _tokenizer_task st = Some tok ->
       m = TokenizerPermutationMerge tok) /\
    (~ In name (embed_weights (arch_info st)) \/ _tokenizer_task st = None -> m = _method st).
Proof.
  destruct (plan_tensor_ok _ _ _ _ _ _ _ _ _ _ H) as (g & gp & tp & b & ->).
  eexists; exists g, gp, tp, b; split; [reflexivity |].
  assert (Hin : existsb (String.eqb name) (embed_weights (arch_info st)) = true <->
                In name (embed_weights (arch_info st))).
  { rewrite existsb_exists; split.
    - intros (x & Hx & Heq); apply String.eqb_eq in Heq; subst; exact Hx.
    - intro Hx; exists name; split; [exact Hx | apply String.eqb_refl]. }
  split.
  - intros tok Hn Ht; rewrite Ht; apply Hin in Hn; rewrite Hn; reflexivity.
  - intros [Hn | Ht].
    + assert (Hf : existsb (String.eqb name) (embed_weights (arch_info st)) = false).
      { apply not_true_is_false; intro E; apply Hn, Hin, E. }
      rewrite Hf; destruct (_tokenizer_task st); reflexivity.
    + rewrite Ht; reflexivity.
Qed.

(** ** The planner: [plan] *)

Lemma frame_eq_inv' st st' :
  frame st' = frame st ->
  _writer_task st' = _writer_task st /\ _tokenizer_task st' = _tokenizer_task st.
Proof. unfold frame; intro H; injection H; intros; split; assumption. Qed.

Lemma plan_ok mp mtp lk st res st' :
  plan mp mtp lk st = inr (res, st') ->
  exists saves entries,
    forallb is_save_task saves = true /\
    res = saves ++ FinalizeModel saves (_writer_task st) ::
            match _tokenizer_task st with Some tok => [tok] | None => [] end /\
    _tensor_log st' = _tensor_log st ++ entries /\
    length saves = length entries.
Proof.
  unfold plan, pm_bind, pm_get, pm_put, pm_ret, pm_lift; cbv beta iota.
  intro H.
  match type of H with
  | context [pm_for ?xs ?b (set_tasks st [])] =>
      destruct (pm_for xs b (set_tasks st [])) as [e | [u1 st1]] eqn:E1
  end; [discriminate |].
  destruct (pm_for_grows _ _ (fun _ _ => True) st (set_tasks st []) _ _ eq_refl E1)
    as (es1 & _ & G1).
  { intros w s s1 v _ _ Hb.
    destruct (py_opt_list (slices (config st))) as [e | sl]; [discriminate |].
    destruct (py_first sl) as [e | s0]; [discriminate |].
    exists [(w, mk_ConfigReader (config st) None 0%Q (Some w))]; split; [exact I |].
    exact (plan_tensor_grows _ _ _ _ _ _ _ _ _ _ Hb). }
  destruct (slices (config st)) as [sl |] eqn:Hsl; [| discriminate].
  match type of H with
  | context [pm_for sl ?b st1] => destruct (pm_for sl b st1) as [e | [u2 st2]] eqn:E2
  end; [discriminate |].
  assert (F1 : frame st1 = frame st) by (destruct G1 as [F _]; exact F).
  destruct (pm_for_grows _ _ (fun _ _ => True) st st1 _ _ F1 E2) as (es2 & _ & G2).
  { intros d s s1 v _ _ Hb.
    destruct (plan_slice_ok _ _ _ _ _ _ _ Hb) as (n & _ & Gs).
    eexists; split; [exact I | exact Gs]. }
  match type of H with
  | context [pm_for ?xs ?b st2] => destruct (pm_for xs b st2) as [e | [u3 st3]] eqn:E3
  end; [discriminate |].
  assert (F2 : frame st2 = frame st) by (destruct G2 as [F _]; congruence).
  destruct (pm_for_grows _ _ (fun _ _ => True) st st2 _ _ F2 E3) as (es3 & _ & G3).
  { intros w s s1 v _ _ Hb.
    unfold py_opt_list in Hb; cbv beta iota in Hb.
    destruct (py_last sl) as [e | s0]; [discriminate |].
    exists [(w, mk_ConfigReader (config st) None 1%Q (Some w))]; split; [exact I |].
    exact (plan_tensor_grows _ _ _ _ _ _ _ _ _ _ Hb). }
  injection H as <- <-.
  pose proof (grows_trans _ _ _ _ _ (grows_trans _ _ _ _ _ G1 G2) G3) as G.
  destruct G as (F & (nt & T & S & L) & Lg).
  destruct (frame_eq_inv' _ _ F) as (Hw & Ht).
  simpl in T; simpl in Lg.
  exists nt, (concat es1 ++ concat es2 ++ concat es3).
  split; [exact S |]; split; [| split].
  - simpl; rewrite T, Hw, Ht, <- app_assoc; reflexivity.
  - simpl; rewrite Lg, <- !app_assoc; reflexivity.
  - rewrite L, <- !app_assoc; reflexivity.
Qed.

Lemma stack_planner_init :
  MergePlanner_init example_registry gpt2_stack_config llama_like_arch "out"
    default_MergeOptions = inr stack_planner.
Proof. reflexivity. Qed.

Lemma filter_finalize_saves l :
  forallb is_save_task l = true -> filter is_finalize_task l = [].
Proof.
  induction l as [| t l IH]; simpl; [reflexivity |].
  destruct t; simpl; try discriminate; exact IH.
Qed.

Lemma init_tokenizer_task mmg c a p o st :
  MergePlanner_init mmg c a p o = inr st ->
  _tasks st = [] /\ _tensor_log st = [] /\
  _tokenizer_task st =
    if negb (String.eqb (merge_method c) "")
    then Some (BuildTokenizer c (trust_remote_code o)) else None.
Proof.
  unfold MergePlanner_init; destruct (mmg (merge_method c)); [discriminate |].
  intro H; injection H as <-; repeat split.
Qed.

(** C10: a plan from a freshly built planner is its save tasks, then one
    [FinalizeModel] task whose dependencies are exactly those save tasks,
    then the tokenizer task if there is one; the plan holds exactly one
    finalizer, and one save task per planned tensor (pre-weights, every
    slice layer and post-weights). *)
Theorem plan_single_finalizer mmg mp mtp lk c a p o st res st'
  (Hinit : MergePlanner_init mmg c a p o = inr st)
  (H : plan mp mtp lk st = inr (res, st')) :
  exists saves,
    forallb is_save_task saves = true /\
    res = saves ++ FinalizeModel saves (_writer_task st) ::
            match _tokenizer_task st with Some tok => [tok] | None => [] end /\
    length (filter is_finalize_task res) = 1%nat /\
    length saves = length (_tensor_log st').
Proof.
  destruct (init_tokenizer_task _ _ _ _ _ _ Hinit) as (_ & Hl & Ht).
  destruct (plan_ok _ _ _ _ _ _ H) as (saves & entries & S & -> & Lg & L).
  exists saves; split; [exact S |]; split; [reflexivity |]; split.
  - rewrite filter_app, filter_finalize_saves by exact S; simpl.
    rewrite Ht; destruct (negb _); reflexivity.
  - rewrite Lg, Hl, L; reflexivity.
Qed.

(** C9 (the code's gate): the plan of a freshly built planner holds a
    tokenizer-build task exactly when the configuration's [merge_method] is
    non-empty; nothing else of the configuration or the options is
    consulted. *)
Theorem plan_tokenizer_task_iff_merge_method mmg mp mtp lk c a p o st res st'
  (Hinit : MergePlanner_init mmg c a p o = inr st)
  (H : plan mp mtp lk st = inr (res, st')) :
  ((exists t, In t res /\ is_tokenizer_task t = true) <-> merge_method c <> "") /\
  (merge_method c <> "" -> In (BuildTokenizer c (trust_remote_code o)) res).
Proof.
  destruct (init_tokenizer_task _ _ _ _ _ _ Hinit) as (_ & _ & Ht).
  destruct (plan_ok _ _ _ _ _ _ H) as (saves & entries & S & -> & _ & _).
  rewrite Ht.
  assert (Hs : forall t, In t saves -> is_tokenizer_task t = false).
  { intros t Hin; rewrite forallb_forall in S; specialize (S t Hin).
    destruct t; try discriminate; reflexivity. }
  destruct (String.eqb (merge_method c) "") eqn:E; simpl.
  - apply String.eqb_eq in E; rewrite E; split; [split |].
    + intros (t & Hin & Htk); exfalso.
      apply in_app_or in Hin; destruct Hin as [Hin | [<- | []]];
        [rewrite (Hs t Hin) in Htk |]; discriminate.
    + intro Hne; exfalso; apply Hne; reflexivity.
    + intro Hne; exfalso; apply Hne; reflexivity.
  - apply String.eqb_neq in E; split; [split |].
    + intros _; exact E.
    + intros _; exists (BuildTokenizer c (trust_remote_code o)); split; [| reflexivity].
      apply in_or_app; right; right; left; reflexivity.
    + intros _; apply in_or_app; right; right; left; reflexivity.
Qed.

(** C3 (counterexample): a freshly built planner, given one slice of two
    layers of a single model, plans two distinct save tasks that both write
    ["model.layers.0.mlp.weight"]: [plan_layer] names its outputs after
    [_current_layers], which nothing increments. *)
Lemma plan_two_layers_duplicate_save_name :
  exists st res st',
    MergePlanner_init example_registry two_layer_config llama_like_arch "out"
      default_MergeOptions = inr st /\
    plan no_parameters no_parameters empty_lookup st = inr (res, st') /\
    exists i j ti tj,
      i <> j /\ nth_error res i = Some ti /\ nth_error res j = Some tj /\
      is_save_task ti = true /\ is_save_task tj = true /\ ti <> tj /\
      save_name ti = Some "model.layers.0.mlp.weight" /\
      save_name tj = Some "model.layers.0.mlp.weight".
Proof.
  do 3 eexists; split; [reflexivity |]; split; [cbv; reflexivity |].
  exists 1%nat, 2%nat; do 2 eexists.
  split; [discriminate |]; split; [reflexivity |]; split; [reflexivity |].
  split; [reflexivity |]; split; [reflexivity |]; split; [| split; reflexivity].
  intro Heq; inversion Heq.
Qed.

Lemma plan_slice_unequal_lengths_fatal_witness :
  plan_slice no_parameters no_parameters empty_lookup unequal_slice stack_planner =
    inl (RuntimeError slice_length_msg) /\
  MergePlanner_init example_registry gpt2_stack_config llama_like_arch "out"
    {| allow_crimes := true; transformers_cache := None; lora_merge_cache := None;
       cuda := false; low_cpu_memory := false; out_shard_size := 5000000000;
       copy_tokenizer := true; clone_tensors_opt := false; trust_remote_code := false;
       random_seed := None; lazy_unpickle := false |} =
  MergePlanner_init example_registry gpt2_stack_config llama_like_arch "out"
    default_MergeOptions.
Proof.
  split.
  - apply (proj1 (plan_slice_unequal_lengths_fatal no_parameters no_parameters
                    empty_lookup unequal_slice) stack_planner).
    exists {| model := "model_a"; layer_range := (0, 2) |},
           {| model := "model_b"; layer_range := (0, 3) |}.
    split; [reflexivity |]; split; [right; left; reflexivity | simpl; lia].
  - apply (proj2 (plan_slice_unequal_lengths_fatal no_parameters no_parameters
                    empty_lookup unequal_slice)); reflexivity.
Defined.

Lemma plan_slice_interpolation_fraction_witness :
  exists st',
    plan_slice no_parameters no_parameters empty_lookup three_layer_slice stack_planner =
      inr (tt, st') /\
    exists entries,
      _tensor_log st' = _tensor_log stack_planner ++ entries /\
      map (fun e => cr_t (snd e)) entries =
        flat_map (fun idx =>
                    repeat (if Z.ltb 1 (7 - 4) then (inject_Z idx / inject_Z (7 - 4 - 1))%Q
                            else 1%Q)
                      (length (layer_weight_formats (arch_info stack_planner))))
          (py_range (7 - 4)) /\
      (forall idx, In idx (py_range (7 - 4)) <-> 0 <= idx < 7 - 4) /\
      (1 < 7 - 4 -> ~ (inject_Z (7 - 4 - 1) == 0)%Q).
Proof.
  destruct (plan_slice no_parameters no_parameters empty_lookup three_layer_slice
              stack_planner) as [e | [[] st']] eqn:E.
  - vm_compute in E; discriminate E.
  - exists st'; split; [reflexivity |].
    exact (plan_slice_interpolation_fraction no_parameters no_parameters empty_lookup
             three_layer_slice stack_planner tt st'
             {| model := "model_a"; layer_range := (4, 7) |} eq_refl E).
Defined.

Lemma plan_tensor_merge_method_witness :
  exists st',
    plan_tensor no_parameters no_parameters empty_lookup "model.embed_tokens.weight"
      ["model.embed_tokens.weight"] ["gpt2"]
      (mk_ConfigReader gpt2_stack_config None 0%Q (Some "model.embed_tokens.weight"))
      stack_planner = inr (tt, st') /\
    exists m gather gp tp base,
      _tasks st' = _tasks stack_planner ++
        [SaveTensor "model.embed_tokens.weight"
           (MergeTensorTask m "model.embed_tokens.weight" gather gp tp base)
           (_writer_task stack_planner) (clone_tensors stack_planner)] /\
      (forall tok, In "model.embed_tokens.weight" (embed_weights (arch_info stack_planner)) ->
         _tokenizer_task stack_planner = Some tok -> m = TokenizerPermutationMerge tok) /\
      (~ In "model.embed_tokens.weight" (embed_weights (arch_info stack_planner)) \/
       _tokenizer_task stack_planner = None -> m = _method stack_planner).
Proof.
  destruct (plan_tensor no_parameters no_parameters empty_lookup "model.embed_tokens.weight"
              ["model.embed_tokens.weight"] ["gpt2"]
              (mk_ConfigReader gpt2_stack_config None 0%Q (Some "model.embed_tokens.weight"))
              stack_planner) as [e | [[] st']] eqn:E.
  - vm_compute in E; discriminate E.
  - exists st'; split; [reflexivity |].
    exact (plan_tensor_merge_method no_parameters no_parameters empty_lookup
             "model.embed_tokens.weight" ["model.embed_tokens.weight"] ["gpt2"]
             (mk_ConfigReader gpt2_stack_config None 0%Q (Some "model.embed_tokens.weight"))
             stack_planner tt st' E).
Defined.

Lemma plan_single_finalizer_witness :
  exists res st',
    plan no_parameters no_parameters empty_lookup stack_planner = inr (res, st') /\
    exists saves,
      forallb is_save_task saves = true /\
      res = saves ++ FinalizeModel saves (_writer_task stack_planner) ::
              match _tokenizer_task stack_planner with Some tok => [tok] | None => [] end /\
      length (filter is_finalize_task res) = 1%nat /\
      length saves = length (_tensor_log st').
Proof.
  destruct (plan no_parameters no_parameters empty_lookup stack_planner)
    as [e | [res st']] eqn:E.
  - vm_compute in E; discriminate E.
  - exists res, st'; split; [reflexivity |].
    exact (plan_single_finalizer example_registry no_parameters no_parameters empty_lookup
             gpt2_stack_config llama_like_arch "out" default_MergeOptions stack_planner
             res st' eq_refl E).
Defined.

Lemma plan_tokenizer_task_iff_merge_method_witness :
  exists res st',
    plan no_parameters no_parameters empty_lookup stack_planner = inr (res, st') /\
    ((exists t, In t res /\ is_tokenizer_task t = true) <->
       merge_method gpt2_stack_config <> "") /\
    (merge_method gpt2_stack_config <> "" ->
       In (BuildTokenizer gpt2_stack_config (trust_remote_code default_MergeOptions)) res).
Proof.
  destruct (plan no_parameters no_parameters empty_lookup stack_planner)
    as [e | [res st']] eqn:E.
  - vm_compute in E; discriminate E.
  - exists res, st'; split; [reflexivity |].
    exact (plan_tokenizer_task_iff_merge_method example_registry no_parameters no_parameters
             empty_lookup gpt2_stack_config llama_like_arch "out" default_MergeOptions
             stack_planner res st' eq_refl E).
Defined.

(** ** Further properties: the tasks the planner appends *)

Lemma frame_eq_clone st st' : frame st' = frame st -> clone_tensors st' = clone_tensors st.
Proof. unfold frame; intro H; injection H; intros; assumption. Qed.

Lemma save_of_frame st st' t : frame st' = frame st -> save_of st' t -> save_of st t.
Proof.
  intros F (n & tt & ->); destruct (frame_eq_inv' _ _ F) as (Hw & _).
  rewrite Hw, (frame_eq_clone _ _ F); exists n, tt; reflexivity.
Qed.

Lemma planned_save_frame st st' name g t :
  frame st' = frame st -> planned_save st' name g t -> planned_save st name g t.
Proof.
  intros F (m & gp & tp & ->); destruct (frame_eq_inv' _ _ F) as (Hw & _).
  destruct (frame_eq_inv _ _ F) as (Hc & _ & _).
  rewrite Hw, Hc, (frame_eq_clone _ _ F); exists m, gp, tp; reflexivity.
Qed.

Lemma planned_save_save_of st name g t : planned_save st name g t -> save_of st t.
Proof. intros (m & gp & tp & ->); do 2 eexists; reflexivity. Qed.

Lemma pm_for_tasks {A} (xs : list A) (body : A -> PM unit) (P : A -> list Task -> Prop)
  (st0 : MergePlanner) :
  forall st st' u, frame st = frame st0 -> pm_for xs body st = inr (u, st') ->
  (forall x st st1 u, In x xs -> frame st = frame st0 -> body x st = inr (u, st1) ->
     frame st1 = frame st /\ exists nt, P x nt /\ _tasks st1 = _tasks st ++ nt) ->
  frame st' = frame st /\ exists nts, Forall2 P xs nts /\ _tasks st' = _tasks st ++ concat nts.
Proof.
  induction xs as [| x xs IH]; intros st st' u Hf H Hstep.
  - simpl in H; unfold pm_ret in H; injection H as _ <-.
    split; [reflexivity |]; exists []; split; [constructor | rewrite app_nil_r; reflexivity].
  - simpl in H; unfold pm_bind in H.
    destruct (body x st) as [e | [v st1]] eqn:E; [discriminate |].
    destruct (Hstep x st st1 v (or_introl eq_refl) Hf E) as (F1 & nt & HP & T1).
    destruct (IH st1 st' u (eq_trans F1 Hf) H (fun y s s1 w Hy => Hstep y s s1 w (or_intror Hy)))
      as (F2 & nts & HF & T2).
    split; [congruence |].
    exists (nt :: nts); split; [constructor; assumption |].
    rewrite T2, T1; simpl; rewrite app_assoc; reflexivity.
Qed.

Lemma Forall2_concat_map {A B C} (h : B -> C) (G : A -> list C) (Q : B -> Prop) xs nts :
  Forall2 (fun x nt => map h nt = G x /\ Forall Q nt) xs nts ->
  map h (concat nts) = flat_map G xs /\ Forall Q (concat nts).
Proof.
  induction 1 as [| x nt xs nts [Hm Hq] _ [IHm IHq]]; simpl.
  - split; [reflexivity | constructor].
  - rewrite map_app, Hm, IHm; split; [reflexivity | apply Forall_app; split; assumption].
Qed.

Lemma plan_tensor_task mp mtp lk name names_in models cfg st u st' :
  plan_tensor mp mtp lk name names_in models cfg st = inr (u, st') ->
  frame st' = frame st /\
  exists t,
    planned_save st name
      (GatherTensors (dict_of_list String.eqb (combine models names_in)) (dtype (config st))) t /\
    _tasks st' = _tasks st ++ [t].
Proof.
  unfold plan_tensor, pm_bind, pm_get, pm_put; cbv zeta.
  intro H.
  match type of H with
  | context [pm_fold ?xs ?a ?b st] => destruct (pm_fold xs a b st) as [e | [gp st1]] eqn:E1
  end; [discriminate |].
  assert (st1 = st).
  { refine (pm_fold_pure _ _ _ _ _ _ _ E1).
    intros acc x s r s1 Hb; unfold pm_bind, pm_lift, pm_ret in Hb.
    destruct (cfg_parameter _ _ _ _ _ _); [discriminate | congruence]. }
  subst st1.
  match type of H with
  | context [pm_fold ?xs ?a ?b st] => destruct (pm_fold xs a b st) as [e | [tp st2]] eqn:E2
  end; [discriminate |].
  assert (st2 = st).
  { refine (pm_fold_pure _ _ _ _ _ _ _ E2).
    intros acc [m n] s r s1 Hb.
    refine (pm_fold_pure _ _ _ _ _ _ _ Hb).
    intros acc' x s' r' s1' Hb'; unfold pm_bind, pm_lift, pm_ret in Hb'.
    destruct (cfg_parameter _ _ _ _ _ _); [discriminate | congruence]. }
  subst st2.
  injection H as _ <-.
  split; [reflexivity |].
  eexists; split; [do 3 eexists; reflexivity | reflexivity].
Qed.

Lemma plan_layer_tasks mp mtp lk srcs off t cfg st u st' :
  plan_layer mp mtp lk srcs off t cfg st = inr (u, st') ->
  frame st' = frame st /\
  exists nts,
    Forall2 (fun f nt => exists tk, nt = [tk] /\
      planned_save st (format_idx f (_current_layers st))
        (GatherTensors
           (dict_of_list String.eqb
              (combine (map model srcs)
                 (map (fun s => format_idx f (fst (layer_range s) + off)) srcs)))
           (dtype (config st))) tk)
      (layer_weight_formats (arch_info st)) nts /\
    _tasks st' = _tasks st ++ concat nts.
Proof.
  unfold plan_layer; unfold pm_bind at 1; unfold pm_get at 1; cbv beta iota.
  intro H.
  eapply (pm_for_tasks _ _ _ st st st' u eq_refl H).
  intros f s s1 w _ Hf Hb.
  unfold pm_bind, pm_get in Hb; cbv beta iota in Hb.
  destruct (plan_tensor_task _ _ _ _ _ _ _ _ _ _ Hb) as (F1 & tk & Hp & T1).
  split; [exact F1 |]; exists [tk]; split; [| exact T1].
  exists tk; split; [reflexivity |].
  destruct (frame_eq_inv _ _ Hf) as (Hc & _ & Hl).
  rewrite Hc, Hl in Hp; exact (planned_save_frame _ _ _ _ _ Hf Hp).
Qed.

Lemma layer_saves st (g : NameFormat -> Task) fs nts :
  Forall2 (fun f nt => exists tk, nt = [tk] /\
             planned_save st (format_idx f (_current_layers st)) (g f) tk) fs nts ->
  Forall2 (fun f nt => map save_name nt = [Some (format_idx f (_current_layers st))] /\
             Forall (save_of st) nt) fs nts.
Proof.
  apply Forall2_impl; intros f nt (tk & -> & Hp); split.
  - destruct Hp as (m & gp & tp & ->); reflexivity.
  - constructor; [exact (planned_save_save_of _ _ _ _ Hp) | constructor].
Qed.

Lemma slice_num_layers_first d n :
  py_first (slice_lengths d) = inr n -> slice_num_layers d = n.
Proof.
  unfold slice_num_layers, py_first; destruct (slice_lengths d); congruence.
Qed.

Lemma plan_slice_tasks mp mtp lk d st u st' :
  plan_slice mp mtp lk d st = inr (u, st') ->
  frame st' = frame st /\
  exists nt, _tasks st' = _tasks st ++ nt /\
    map save_name nt =
      flat_map (fun _ => map (fun f => Some (format_idx f (_current_layers st)))
                           (layer_weight_formats (arch_info st)))
        (py_range (slice_num_layers d)) /\
    Forall (save_of st) nt.
Proof.
  unfold plan_slice; fold (slice_lengths d); cbv zeta.
  match goal with |- context [if ?b then _ else _] => destruct b end;
    [unfold pm_raise; discriminate |].
  unfold pm_bind, pm_lift, pm_get.
  destruct (py_first (slice_lengths d)) as [e | n] eqn:En; [discriminate |].
  rewrite (slice_num_layers_first _ _ En).
  intro H.
  destruct (pm_for_tasks _ _
              (fun _ nt =>
                 map save_name nt =
                   map (fun f => Some (format_idx f (_current_layers st)))
                     (layer_weight_formats (arch_info st)) /\
                 Forall (save_of st) nt)
              st st st' u eq_refl H) as (F & nts & HF & T).
  - intros idx s s1 w _ Hf Hb.
    destruct (plan_layer_tasks _ _ _ _ _ _ _ _ _ _ Hb) as (F1 & nts1 & HF1 & T1).
    split; [exact F1 |]; exists (concat nts1); split; [| exact T1].
    destruct (Forall2_concat_map _ _ _ _ _ (layer_saves _ _ _ _ HF1)) as (Hm & Hq).
    destruct (frame_eq_inv _ _ Hf) as (_ & Ha & Hl).
    rewrite Hm, flat_map_single, Ha, Hl; split; [reflexivity |].
    exact (Forall_impl _ (fun tk => save_of_frame _ _ tk Hf) Hq).
  - split; [exact F |]; exists (concat nts); split; [exact T |].
    exact (Forall2_concat_map _ _ _ _ _ HF).
Qed.

Lemma plan_tasks mp mtp lk st res st' :
  plan mp mtp lk st = inr (res, st') ->
  exists sl saves,
    slices (config st) = Some sl /\
    res = saves ++ FinalizeModel saves (_writer_task st) ::
            match _tokenizer_task st with Some tok => [tok] | None => [] end /\
    map save_name saves =
      map Some (pre_weights (arch_info st)) ++
      flat_map (fun d => flat_map (fun _ => map (fun f => Some (format_idx f (_current_layers st)))
                                              (layer_weight_formats (arch_info st)))
                           (py_range (slice_num_layers d))) sl ++
      map Some (post_weights (arch_info st)) /\
    Forall (save_of st) saves.
Proof.
  unfold plan, pm_bind, pm_get, pm_put, pm_ret, pm_lift; cbv beta iota.
  intro H.
  match type of H with
  | context [pm_for ?xs ?b (set_tasks st [])] =>
      destruct (pm_for xs b (set_tasks st [])) as [e | [u1 st1]] eqn:E1
  end; [discriminate |].
  destruct (pm_for_tasks _ _
              (fun w nt => map save_name nt = [Some w] /\ Forall (save_of st) nt)
              st (set_tasks st []) _ _ eq_refl E1) as (F1 & nts1 & HF1 & T1).
  { intros w s s1 v _ Hf Hb.
    destruct (py_opt_list (slices (config st))) as [e | sl]; [discriminate |].
    destruct (py_first sl) as [e | s0]; [discriminate |].
    destruct (plan_tensor_task _ _ _ _ _ _ _ _ _ _ Hb) as (F & tk & Hp & T).
    split; [exact F |]; exists [tk]; split; [| exact T].
    split; [destruct Hp as (m & gp & tp & ->); reflexivity |].
    constructor; [| constructor].
    exact (save_of_frame _ _ _ Hf (planned_save_save_of _ _ _ _ Hp)). }
  destruct (slices (config st)) as [sl |] eqn:Hsl; [| discriminate].
  match type of H with
  | context [pm_for sl ?b st1] => destruct (pm_for sl b st1) as [e | [u2 st2]] eqn:E2
  end; [discriminate |].
  destruct (pm_for_tasks _ _
              (fun d nt =>
                 map save_name nt =
                   flat_map (fun _ => map (fun f => Some (format_idx f (_current_layers st)))
                                        (layer_weight_formats (arch_info st)))
                     (py_range (slice_num_layers d)) /\
                 Forall (save_of st) nt)
              st st1 _ _ F1 E2) as (F2 & nts2 & HF2 & T2).
  { intros d s s1 v _ Hf Hb.
    destruct (plan_slice_tasks _ _ _ _ _ _ _ Hb) as (F & nt & T & Hm & Hq).
    split; [exact F |]; exists nt; split; [| exact T].
    destruct (frame_eq_inv _ _ Hf) as (_ & Ha & Hl).
    rewrite Hm, Ha, Hl; split; [reflexivity |].
    exact (Forall_impl _ (fun tk => save_of_frame _ _ tk Hf) Hq). }
  match type of H with
  | context [pm_for ?xs ?b st2] => destruct (pm_for xs b st2) as [e | [u3 st3]] eqn:E3
  end; [discriminate |].
  destruct (pm_for_tasks _ _
              (fun w nt => map save_name nt = [Some w] /\ Forall (save_of st) nt)
              st st2 _ _ (eq_trans F2 F1) E3) as (F3 & nts3 & HF3 & T3).
  { intros w s s1 v _ Hf Hb.
    unfold py_opt_list in Hb; cbv beta iota in Hb.
    destruct (py_last sl) as [e | s0]; [discriminate |].
    destruct (plan_tensor_task _ _ _ _ _ _ _ _ _ _ Hb) as (F & tk & Hp & T).
    split; [exact F |]; exists [tk]; split; [| exact T].
    split; [destruct Hp as (m & gp & tp & ->); reflexivity |].
    constructor; [| constructor].
    exact (save_of_frame _ _ _ Hf (planned_save_save_of _ _ _ _ Hp)). }
  injection H as <- <-.
  assert (F : frame st3 = frame st) by (rewrite F3, F2; exact F1).
  destruct (frame_eq_inv' _ _ F) as (Hw & Ht).
  destruct (Forall2_concat_map _ _ _ _ _ HF1) as (Hm1 & Hq1).
  destruct (Forall2_concat_map _ _ _ _ _ HF2) as (Hm2 & Hq2).
  destruct (Forall2_concat_map _ _ _ _ _ HF3) as (Hm3 & Hq3).
  rewrite flat_map_single in Hm1, Hm3.
  exists sl, (concat nts1 ++ concat nts2 ++ concat nts3).
  split; [reflexivity |]; split; [| split].
  - simpl; rewrite T3, T2, T1, Hw, Ht; simpl; rewrite <- !app_assoc; reflexivity.
  - rewrite !map_app, Hm1, Hm2, Hm3; reflexivity.
  - apply Forall_app; split; [| apply Forall_app; split]; assumption.
Qed.

(** ** Further properties: Python dicts *)

Lemma dict_set_keys {V} (d : list (string * V)) k v :
  map fst (dict_set String.eqb d k v) =
  if existsb (String.eqb k) (map fst d) then map fst d else map fst d ++ [k].
Proof.
  induction d as [| [k' v'] d IH]; simpl; [reflexivity |].
  destruct (String.eqb k k'); simpl; [reflexivity |].
  rewrite IH; destruct (existsb _ _); reflexivity.
Qed.

Lemma dict_set_nodup {V} (d : list (string * V)) k v :
  NoDup (map fst d) -> NoDup (map fst (dict_set String.eqb d k v)).
Proof.
  intro Hn; rewrite dict_set_keys.
  destruct (existsb (String.eqb k) (map fst d)) eqn:E; [exact Hn |].
  apply NoDup_app; [exact Hn | constructor; [intros [] | constructor] |].
  intros x Hx [<- | []].
  assert (Hf : existsb (String.eqb k) (map fst d) = true).
  { apply existsb_exists; exists k; split; [exact Hx | apply String.eqb_refl]. }
  congruence.
Qed.

Lemma dict_get_set {V} (d : list (string * V)) k v m :
  dict_get (dict_set String.eqb d k v) m = if String.eqb k m then Some v else dict_get d m.
Proof.
  unfold dict_get; induction d as [| [k' v'] d IH]; simpl.
  - destruct (String.eqb k m); reflexivity.
  - destruct (String.eqb k k') eqn:E; simpl.
    + apply String.eqb_eq in E; subst k'; destruct (String.eqb k m); reflexivity.
    + destruct (String.eqb k' m) eqn:E2; simpl; [| exact IH].
      destruct (String.eqb k m) eqn:E3; [| reflexivity].
      apply String.eqb_eq in E2; apply String.eqb_eq in E3; subst.
      rewrite String.eqb_refl in E; discriminate.
Qed.

Lemma dict_get_fold {V} (l : list (string * V)) d m :
  dict_get (fold_left (fun d kv => dict_set String.eqb d (fst kv) (snd kv)) l d) m =
  match assoc_last l m with Some w => Some w | None => dict_get d m end.
Proof.
  revert d; induction l as [| [k v] l IH]; intro d; simpl; [reflexivity |].
  rewrite IH, dict_get_set.
  destruct (assoc_last l m); [reflexivity |].
  destruct (String.eqb k m); reflexivity.
Qed.

Lemma dict_fold_nodup {V} (l : list (string * V)) d :
  NoDup (map fst d) ->
  NoDup (map fst (fold_left (fun d kv => dict_set String.eqb d (fst kv) (snd kv)) l d)).
Proof.
  revert d; induction l as [| kv l IH]; intros d Hd; simpl; [exact Hd |].
  apply IH, dict_set_nodup, Hd.
Qed.

Lemma dict_of_list_get {V} (l : list (string * V)) m :
  dict_get (dict_of_list String.eqb l) m = assoc_last l m.
Proof.
  unfold dict_of_list; rewrite dict_get_fold; destruct (assoc_last l m); reflexivity.
Qed.

Lemma dict_of_list_nodup {V} (l : list (string * V)) :
  NoDup (map fst (dict_of_list String.eqb l)).
Proof. apply dict_fold_nodup; constructor. Qed.

Lemma init_frame mmg c a p o st :
  MergePlanner_init mmg c a p o = inr st ->
  config st = c /\ arch_info st = a /\ _writer_task st = TensorWriterTask p (out_shard_size o) /\
  clone_tensors st = clone_tensors_opt o /\ _current_layers st = 0.
Proof.
  unfold MergePlanner_init; destruct (mmg (merge_method c)); [discriminate |].
  intro H; injection H as <-; repeat split.
Qed.

Lemma Forall2_single_map {A B C} (h : B -> C) (g : A -> C) xs nts :
  Forall2 (fun x nt => map h nt = [g x]) xs nts -> map h (concat nts) = map g xs.
Proof.
  induction 1 as [| x nt xs nts Hm _ IH]; simpl; [reflexivity |].
  rewrite map_app, Hm, IH; reflexivity.
Qed.



(** * Further properties *)

(** X1: the save tasks of a plan from a freshly built planner write, in
    order, the pre-weights, then for each slice as many copies of the layer
    templates as the slice's first source has layers, then the post-weights.
    Every layer template is formatted with index 0, whatever the slice and
    the layer: [_current_layers] keeps its initial value. A slice whose
    length is zero or negative contributes nothing. *)
Theorem plan_save_names mmg mp mtp lk c a p o st res st'
  (Hinit : MergePlanner_init mmg c a p o = inr st)
  (H : plan mp mtp lk st = inr (res, st')) :
  exists sl saves,
    slices c = Some sl /\
    res = saves ++ FinalizeModel saves (_writer_task st) ::
            match _tokenizer_task st with Some tok => [tok] | None => [] end /\
    map save_name saves =
      map Some (pre_weights a ++
                flat_map (fun d => flat_map (fun _ => map (fun f => format_idx f 0)
                                                        (layer_weight_formats a))
                                     (py_range (slice_num_layers d))) sl ++
                post_weights a).
Proof.
  destruct (init_frame _ _ _ _ _ _ Hinit) as (Hc & Ha & _ & _ & Hl).
  destruct (plan_tasks _ _ _ _ _ _ H) as (sl & saves & Hsl & Hres & Hm & _).
  exists sl, saves; rewrite <- Hc, <- Ha; split; [exact Hsl |]; split; [exact Hres |].
  rewrite Hm, Hl, !map_app, map_flat_map'; do 2 f_equal.
  apply flat_map_ext; intro d; rewrite map_flat_map'.
  apply flat_map_ext; intro idx; rewrite map_map; reflexivity.
Qed.

(** X2: every task of a plan from a freshly built planner that writes
    goes through the one [TensorWriterTask] for [out_path] with
    [options.out_shard_size]: each save task uses it, and so does the
    finalizer. Each save task copies its tensor exactly when
    [options.clone_tensors] is set. *)
Theorem plan_shared_writer mmg mp mtp lk c a p o st res st'
  (Hinit : MergePlanner_init mmg c a p o = inr st)
  (H : plan mp mtp lk st = inr (res, st')) :
  exists saves,
    res = saves ++ FinalizeModel saves (TensorWriterTask p (out_shard_size o)) ::
            match _tokenizer_task st with Some tok => [tok] | None => [] end /\
    Forall (fun t => exists n tt,
              t = SaveTensor n tt (TensorWriterTask p (out_shard_size o)) (clone_tensors_opt o))
      saves.
Proof.
  destruct (init_frame _ _ _ _ _ _ Hinit) as (_ & _ & Hw & Hcl & _).
  destruct (plan_tasks _ _ _ _ _ _ H) as (sl & saves & _ & Hres & _ & Hq).
  exists saves; split; [rewrite Hres, Hw; reflexivity |].
  refine (Forall_impl _ _ Hq); unfold save_of; rewrite Hw, Hcl; trivial.
Qed.

(** X3: [plan_layer] for layer offset [off] appends one save task per layer
    template [f] of the architecture, in order. The task is named
    [f] formatted with [_current_layers]. Its gather task reads, from each
    source's model, [f] formatted with that source's [layer_range[0] + off],
    in the configuration's dtype. *)
Theorem plan_layer_gathers_offset_layers mp mtp lk srcs off t cfg st u st'
  (H : plan_layer mp mtp lk srcs off t cfg st = inr (u, st')) :
  exists nt,
    _tasks st' = _tasks st ++ nt /\
    map save_name nt =
      map (fun f => Some (format_idx f (_current_layers st))) (layer_weight_formats (arch_info st)) /\
    map save_gather nt =
      map (fun f => Some (GatherTensors
                            (dict_of_list String.eqb
                               (combine (map model srcs)
                                  (map (fun s => format_idx f (fst (layer_range s) + off)) srcs)))
                            (dtype (config st))))
        (layer_weight_formats (arch_info st)).
Proof.
  destruct (plan_layer_tasks _ _ _ _ _ _ _ _ _ _ H) as (_ & nts & HF & T).
  exists (concat nts); split; [exact T |]; split; apply Forall2_single_map;
    revert HF; apply Forall2_impl; intros f nt (tk & -> & m & gp & tp & ->); reflexivity.
Qed.

(** X4: the gather task of the save task [plan_tensor] appends is
    [dict(zip(models, names_in))]: each model is a key once, and it maps to
    the input name paired with its last occurrence. A model listed by two
    sources (as in [test_gpt2_stack]) is gathered once, under the second
    source's tensor name. *)
Theorem plan_tensor_gather_dict mp mtp lk name names_in models cfg st u st'
  (H : plan_tensor mp mtp lk name names_in models cfg st = inr (u, st')) :
  exists t tn,
    _tasks st' = _tasks st ++ [t] /\
    save_name t = Some name /\
    save_gather t = Some (GatherTensors tn (dtype (config st))) /\
    NoDup (map fst tn) /\
    forall m, dict_get tn m = assoc_last (combine models names_in) m.
Proof.
  destruct (plan_tensor_task _ _ _ _ _ _ _ _ _ _ H) as (_ & tk & (m & gp & tp & ->) & T).
  do 2 eexists; split; [exact T |]; split; [reflexivity |]; split; [reflexivity |].
  split; [apply dict_of_list_nodup | intro k; apply dict_of_list_get].
Qed.

(** X5: [plan] cannot plan a configuration without slices. When [slices]
    is [None] (a configuration given by [models], as in [test_gpt2_copy]),
    it raises a [TypeError]: from indexing the slices for the first
    pre-weight, or from iterating over them when there is no pre-weight.
    When [slices] is empty and the architecture has a pre- or post-weight,
    it raises an [IndexError]. *)
Theorem plan_requires_slices mp mtp lk st :
  (slices (config st) = None -> exists msg, plan mp mtp lk st = inl (TypeError msg)) /\
  (slices (config st) = Some [] ->
   pre_weights (arch_info st) <> [] \/ post_weights (arch_info st) <> [] ->
   plan mp mtp lk st = inl (IndexError "list index out of range")).
Proof.
  split.
  - intro Hsl; unfold plan, pm_bind, pm_get, pm_put, pm_ret, pm_lift; cbv beta iota.
    rewrite Hsl; destruct (pre_weights (arch_info st)) as [| w ws]; simpl; eexists; reflexivity.
  - intros Hsl Hw; unfold plan, pm_bind, pm_get, pm_put, pm_ret, pm_lift; cbv beta iota.
    rewrite Hsl; destruct (pre_weights (arch_info st)) as [| w ws]; simpl; [| reflexivity].
    destruct (post_weights (arch_info st)) as [| w ws]; simpl; [| reflexivity].
    destruct Hw as [Hw | Hw]; exfalso; apply Hw; reflexivity.
Qed.



(** X7: a slice whose sources all have the same length [n <= 0] (an empty
    or inverted [layer_range]) is accepted by [plan_slice]: it plans nothing
    and leaves the planner unchanged, without raising. *)
Theorem plan_slice_empty_range mp mtp lk d st
  (Hsrc : sources d <> [])
  (Hall : lengths_all_equal d = true)
  (Hn : slice_num_layers d <= 0) :
  plan_slice mp mtp lk d st = inr (tt, st).
Proof.
  unfold plan_slice; fold (slice_lengths d); cbv zeta.
  unfold lengths_all_equal in Hall; rewrite Hall; simpl negb; cbv iota.
  unfold slice_num_layers in Hn.
  unfold pm_bind, pm_lift, pm_get.
  destruct (slice_lengths d) as [| n ns] eqn:Hs.
  - exfalso; apply Hsrc; unfold slice_lengths in Hs; apply map_eq_nil in Hs; exact Hs.
  - cbv [negb py_first]; cbv beta iota.
    replace (py_range n) with (@nil Z)
      by (unfold py_range; replace (Z.to_nat n) with 0%nat by lia; reflexivity).
    reflexivity.
Qed.

(** X8: [plan_slice] raises [IndexError] on a slice without sources: the
    length check passes vacuously, and [slice_lengths[0]] fails. *)
Theorem plan_slice_no_sources mp mtp lk d st
  (Hsrc : sources d = []) :
  plan_slice mp mtp lk d st = inl (IndexError "list index out of range").
Proof.
  unfold plan_slice; rewrite Hsrc; reflexivity.
Qed.



Lemma Forall2_concat_single {A B} (Q : A -> B -> Prop) xs nts :
  Forall2 (fun x nt => exists t, nt = [t] /\ Q x t) xs nts -> Forall2 Q xs (concat nts).
Proof.
  induction 1 as [| x nt xs nts (t & -> & Hq) _ IH]; simpl; constructor; assumption.
Qed.

Lemma py_first_hd {A} (xs : list A) x : py_first xs = inr x -> hd_error xs = Some x.
Proof. unfold py_first; destruct xs; simpl; congruence. Qed.

Lemma py_last_hd {A} (xs : list A) x : py_last xs = inr x -> hd_error (rev xs) = Some x.
Proof. unfold py_last; destruct (rev xs); simpl; congruence. Qed.

(** X11: in a successful [plan], the pre-weights are planned first and the
    post-weights last, each as one save task under its own name. The gather
    task of a pre-weight reads that tensor name from every model of the first
    slice's sources. The gather task of a post-weight does the same with the
    last slice's sources. The slices in between contribute the tasks in the
    middle. *)
Theorem plan_pre_post_from_end_slices mp mtp lk st res st'
  (H : plan mp mtp lk st = inr (res, st')) :
  exists sl pre_t mid post_t,
    slices (config st) = Some sl /\
    res = (pre_t ++ mid ++ post_t) ++
            FinalizeModel (pre_t ++ mid ++ post_t) (_writer_task st) ::
            match _tokenizer_task st with Some tok => [tok] | None => [] end /\
    Forall2 (fun w t => exists s0, hd_error sl = Some s0 /\ save_name t = Some w /\
               save_gather t =
                 Some (GatherTensors
                         (dict_of_list String.eqb
                            (combine (map model (sources s0)) (repeat w (length (sources s0)))))
                         (dtype (config st))))
      (pre_weights (arch_info st)) pre_t /\
    Forall2 (fun w t => exists s1, hd_error (rev sl) = Some s1 /\ save_name t = Some w /\
               save_gather t =
                 Some (GatherTensors
                         (dict_of_list String.eqb
                            (combine (map model (sources s1)) (repeat w (length (sources s1)))))
                         (dtype (config st))))
      (post_weights (arch_info st)) post_t.
Proof.
  revert H; unfold plan, pm_bind, pm_get, pm_put, pm_ret, pm_lift; cbv beta iota.
  destruct (slices (config st)) as [sl |] eqn:Hsl; intro H.
  2:{ match type of H with
      | context [pm_for ?xs ?b (set_tasks st [])] =>
          destruct (pm_for xs b (set_tasks st [])) as [e | [u1 st1]]
      end; discriminate. }
  match type of H with
  | context [pm_for ?xs ?b (set_tasks st [])] =>
      destruct (pm_for xs b (set_tasks st [])) as [e | [u1 st1]] eqn:E1
  end; [discriminate |].
  destruct (pm_for_tasks _ _
              (fun w nt => exists t, nt = [t] /\
                 exists s0, hd_error sl = Some s0 /\ save_name t = Some w /\
                 save_gather t =
                   Some (GatherTensors
                           (dict_of_list String.eqb
                              (combine (map model (sources s0)) (repeat w (length (sources s0)))))
                           (dtype (config st))))
              st (set_tasks st []) _ _ eq_refl E1) as (F1 & nts1 & HF1 & T1).
  { intros w s s1 v _ Hf Hb.
    unfold py_opt_list in Hb; cbv beta iota in Hb.
    destruct (py_first sl) as [e | s0] eqn:Hs0; [discriminate |].
    destruct (plan_tensor_task _ _ _ _ _ _ _ _ _ _ Hb) as (F & tk & (m & gp & tp & Htk) & T).
    split; [exact F |]; exists [tk]; split; [| exact T].
    exists tk; split; [reflexivity |]; exists s0; split; [exact (py_first_hd _ _ Hs0) |].
    destruct (frame_eq_inv _ _ Hf) as (Hc & _ & _).
    rewrite Htk, Hc; split; reflexivity. }
  match type of H with
  | context [pm_for sl ?b st1] => destruct (pm_for sl b st1) as [e | [u2 st2]] eqn:E2
  end; [discriminate |].
  destruct (pm_for_tasks _ _ (fun _ _ => True) st st1 _ _ F1 E2) as (F2 & nts2 & _ & T2).
  { intros d s s1 v _ Hf Hb.
    destruct (plan_slice_tasks _ _ _ _ _ _ _ Hb) as (F & nt & T & _).
    split; [exact F |]; exists nt; split; [exact I | exact T]. }
  match type of H with
  | context [pm_for ?xs ?b st2] => destruct (pm_for xs b st2) as [e | [u3 st3]] eqn:E3
  end; [discriminate |].
  destruct (pm_for_tasks _ _
              (fun w nt => exists t, nt = [t] /\
                 exists s1, hd_error (rev sl) = Some s1 /\ save_name t = Some w /\
                 save_gather t =
                   Some (GatherTensors
                           (dict_of_list String.eqb
                              (combine (map model (sources s1)) (repeat w (length (sources s1)))))
                           (dtype (config st))))
              st st2 _ _ (eq_trans F2 F1) E3) as (F3 & nts3 & HF3 & T3).
  { intros w s s1 v _ Hf Hb.
    unfold py_opt_list in Hb; cbv beta iota in Hb.
    destruct (py_last sl) as [e | s0] eqn:Hs0; [discriminate |].
    destruct (plan_tensor_task _ _ _ _ _ _ _ _ _ _ Hb) as (F & tk & (m & gp & tp & Htk) & T).
    split; [exact F |]; exists [tk]; split; [| exact T].
    exists tk; split; [reflexivity |]; exists s0; split; [exact (py_last_hd _ _ Hs0) |].
    destruct (frame_eq_inv _ _ Hf) as (Hc & _ & _).
    rewrite Htk, Hc; split; reflexivity. }
  injection H as <- <-.
  assert (F : frame st3 = frame st) by (rewrite F3, F2; exact F1).
  destruct (frame_eq_inv' _ _ F) as (Hw & Ht).
  exists sl, (concat nts1), (concat nts2), (concat nts3).
  split; [reflexivity |]; split.
  - simpl; rewrite T3, T2, T1, Hw, Ht; simpl; rewrite <- !app_assoc; reflexivity.
  - split; apply Forall2_concat_single; assumption.
Qed.

Lemma plan_save_names_witness :
  exists res st',
    plan no_parameters no_parameters empty_lookup stack_planner = inr (res, st') /\
    exists sl saves,
      slices gpt2_stack_config = Some sl /\
      res = saves ++ FinalizeModel saves (_writer_task stack_planner) ::
              match _tokenizer_task stack_planner with Some tok => [tok] | None => [] end /\
      map save_name saves =
        map Some (pre_weights llama_like_arch ++
                  flat_map (fun d => flat_map (fun _ => map (fun f => format_idx f 0)
                                                          (layer_weight_formats llama_like_arch))
                                       (py_range (slice_num_layers d))) sl ++
                  post_weights llama_like_arch).
Proof.
  destruct (plan no_parameters no_parameters empty_lookup stack_planner)
    as [e | [res st']] eqn:E.
  - vm_compute in E; discriminate E.
  - exists res, st'; split; [reflexivity |].
    exact (plan_save_names example_registry no_parameters no_parameters empty_lookup
             gpt2_stack_config llama_like_arch "out" default_MergeOptions stack_planner
             res st' eq_refl E).
Defined.

Lemma plan_shared_writer_witness :
  exists res st',
    plan no_parameters no_parameters empty_lookup stack_planner = inr (res, st') /\
    exists saves,
      res = saves ++ FinalizeModel saves
                       (TensorWriterTask "out" (out_shard_size default_MergeOptions)) ::
              match _tokenizer_task stack_planner with Some tok => [tok] | None => [] end /\
      Forall (fun t => exists n tt,
                t = SaveTensor n tt (TensorWriterTask "out" (out_shard_size default_MergeOptions))
                      (clone_tensors_opt default_MergeOptions))
        saves.
Proof.
  destruct (plan no_parameters no_parameters empty_lookup stack_planner)
    as [e | [res st']] eqn:E.
  - vm_compute in E; discriminate E.
  - exists res, st'; split; [reflexivity |].
    exact (plan_shared_writer example_registry no_parameters no_parameters empty_lookup
             gpt2_stack_config llama_like_arch "out" default_MergeOptions stack_planner
             res st' eq_refl E).
Defined.

Lemma plan_layer_gathers_offset_layers_witness :
  exists st',
    plan_layer no_parameters no_parameters empty_lookup three_layer_slice.(sources) 1 0%Q
      (mk_ConfigReader gpt2_stack_config None 0%Q None) stack_planner = inr (tt, st') /\
    exists nt,
      _tasks st' = _tasks stack_planner ++ nt /\
      map save_name nt =
        map (fun f => Some (format_idx f (_current_layers stack_planner)))
          (layer_weight_formats (arch_info stack_planner)) /\
      map save_gather nt =
        map (fun f => Some (GatherTensors
                              (dict_of_list String.eqb
                                 (combine (map model three_layer_slice.(sources))
                                    (map (fun s => format_idx f (fst (layer_range s) + 1))
                                       three_layer_slice.(sources))))
                              (dtype (config stack_planner))))
          (layer_weight_formats (arch_info stack_planner)).
Proof.
  destruct (plan_layer no_parameters no_parameters empty_lookup three_layer_slice.(sources) 1 0%Q
              (mk_ConfigReader gpt2_stack_config None 0%Q None) stack_planner)
    as [e | [[] st']] eqn:E.
  - vm_compute in E; discriminate E.
  - exists st'; split; [reflexivity |].
    exact (plan_layer_gathers_offset_layers no_parameters no_parameters empty_lookup
             _ _ _ _ stack_planner tt st' E).
Defined.

Lemma plan_tensor_gather_dict_witness :
  exists st',
    plan_tensor no_parameters no_parameters empty_lookup "model.layers.0.mlp.weight"
      ["model.layers.0.mlp.weight"; "model.layers.12.mlp.weight"] ["gpt2"; "gpt2"]
      (mk_ConfigReader gpt2_stack_config None 0%Q None) stack_planner = inr (tt, st') /\
    exists t tn,
      _tasks st' = _tasks stack_planner ++ [t] /\
      save_name t = Some "model.layers.0.mlp.weight" /\
      save_gather t = Some (GatherTensors tn (dtype (config stack_planner))) /\
      NoDup (map fst tn) /\
      forall m, dict_get tn m =
                  assoc_last (combine ["gpt2"; "gpt2"]
                                ["model.layers.0.mlp.weight"; "model.layers.12.mlp.weight"]) m.
Proof.
  destruct (plan_tensor no_parameters no_parameters empty_lookup "model.layers.0.mlp.weight"
              ["model.layers.0.mlp.weight"; "model.layers.12.mlp.weight"] ["gpt2"; "gpt2"]
              (mk_ConfigReader gpt2_stack_config None 0%Q None) stack_planner)
    as [e | [[] st']] eqn:E.
  - vm_compute in E; discriminate E.
  - exists st'; split; [reflexivity |].
    exact (plan_tensor_gather_dict no_parameters no_parameters empty_lookup _ _ _ _
             stack_planner tt st' E).
Defined.

Lemma plan_requires_slices_witness :
  exists st,
    MergePlanner_init example_registry gpt2_copy_config llama_like_arch "out"
      default_MergeOptions = inr st /\
    slices (config st) = None /\
    exists msg, plan no_parameters no_parameters empty_lookup st = inl (TypeError msg).
Proof.
  eexists; split; [reflexivity |]; split; [reflexivity |].
  apply (proj1 (plan_requires_slices no_parameters no_parameters empty_lookup _)).
  reflexivity.
Defined.


Lemma plan_slice_empty_range_witness :
  plan_slice no_parameters no_parameters empty_lookup
    {| sources := [{| model := "model_a"; layer_range := (5, 2) |};
                   {| model := "model_b"; layer_range := (7, 4) |}] |} stack_planner
  = inr (tt, stack_planner).
Proof.
  apply plan_slice_empty_range; [discriminate | reflexivity | apply Z.leb_le; reflexivity].
Defined.

Lemma plan_slice_no_sources_witness :
  plan_slice no_parameters no_parameters empty_lookup {| sources := [] |} stack_planner
  = inl (IndexError "list index out of range").
Proof. apply plan_slice_no_sources; reflexivity. Defined.

Lemma plan_pre_post_from_end_slices_witness :
  exists res st',
    plan no_parameters no_parameters empty_lookup stack_planner = inr (res, st') /\
    exists sl pre_t mid post_t,
      slices (config stack_planner) = Some sl /\
      res = (pre_t ++ mid ++ post_t) ++
              FinalizeModel (pre_t ++ mid ++ post_t) (_writer_task stack_planner) ::
              match _tokenizer_task stack_planner with Some tok => [tok] | None => [] end /\
      Forall2 (fun w t => exists s0, hd_error sl = Some s0 /\ save_name t = Some w /\
                 save_gather t =
                   Some (GatherTensors
                           (dict_of_list String.eqb
                              (combine (map model (sources s0)) (repeat w (length (sources s0)))))
                           (dtype (config stack_planner))))
        (pre_weights (arch_info stack_planner)) pre_t /\
      Forall2 (fun w t => exists s1, hd_error (rev sl) = Some s1 /\ save_name t = Some w /\
                 save_gather t =
                   Some (GatherTensors
                           (dict_of_list String.eqb
                              (combine (map model (sources s1)) (repeat w (length (sources s1)))))
                           (dtype (config stack_planner))))
        (post_weights (arch_info stack_planner)) post_t.
Proof.
  destruct (plan no_parameters no_parameters empty_lookup stack_planner)
    as [e | [res st']] eqn:E.
  - vm_compute in E; discriminate E.
  - exists res, st'; split; [reflexivity |].
    exact (plan_pre_post_from_end_slices no_parameters no_parameters empty_lookup
             stack_planner res st' E).
Defined.
